(** * Assessment Creator back-end: prompt builder, generation client, route

    A shallow embedding of [src/main/utilities.py] and [src/main/routes.py].

    Python objects are an inductive type of values, Python exceptions are
    values of [exn], and every function of the program is a computation in
    a small state-and-exception monad whose state records the calls made
    to [logging] and the HTTP requests sent to the provider.

    Modelling conventions:
    - a Python [str] is a [string] whose characters are the code points
      below 256; [str.lower], [repr] and [int] are given on that range;
    - a Python [int] is a [Z]; floating-point numbers are not modelled,
      so a statement over every input ranges over objects built from
      [None], [bool], [int], [str], [list] and [dict];
    - a [dict] with string keys is an association list read with the first
      binding of a key (a Python dict binds a key once);
    - the interpreter's optional cap on the length of decimal conversions
      ([sys.set_int_max_str_digits]) is a run-time setting and is left out. *)

From Stdlib Require Import ZArith String Ascii List Bool Lia DecimalString DecimalPos.
Import ListNotations.
Local Open Scope string_scope.
Local Open Scope Z_scope.

(** ** Python values and the builtins the program uses *)

Module Py.

#[warnings="-register-all"]
Inductive value : Type :=
| VNone : value
| VBool : bool -> value
| VInt : Z -> value
| VStr : string -> value
| VList : list value -> value
| VDict : list (string * value) -> value.

Definition dict : Type := list (string * value).

(** [key in d] *)
Fixpoint contains (key : string) (d : dict) : bool :=
  match d with
  | [] => false
  | (k, _) :: d' => if String.eqb k key then true else contains key d'
  end.

Fixpoint lookup (key : string) (d : dict) : option value :=
  match d with
  | [] => None
  | (k, v) :: d' => if String.eqb k key then Some v else lookup key d'
  end.

(** [type(v).__name__] *)
Definition type_name (v : value) : string :=
  match v with
  | VNone => "NoneType"
  | VBool _ => "bool"
  | VInt _ => "int"
  | VStr _ => "str"
  | VList _ => "list"
  | VDict _ => "dict"
  end.

(** [bool(v)], the test performed by [if], [and] and [not]. *)
Definition truthy (v : value) : bool :=
  match v with
  | VNone => false
  | VBool b => b
  | VInt z => negb (z =? 0)
  | VStr s => negb (String.eqb s EmptyString)
  | VList l => match l with [] => false | _ :: _ => true end
  | VDict d => match d with [] => false | _ :: _ => true end
  end.

(** [v is not None] *)
Definition is_not_None (v : value) : bool :=
  match v with VNone => false | _ => true end.

(** *** Characters and strings *)

Definition code (c : ascii) : Z := Z.of_N (N_of_ascii c).
Definition chr (n : Z) : ascii := ascii_of_N (Z.to_N n).

Definition between (lo hi n : Z) : bool := (lo <=? n) && (n <=? hi).

(** [str.lower] on one code point below 256: the ASCII capitals and the
    Latin-1 capitals U+00C0..U+00DE without the multiplication sign. *)
Definition lower_char (c : ascii) : ascii :=
  let n := code c in
  if between 65 90 n || (between 192 222 n && negb (n =? 215))
  then chr (n + 32) else c.

Fixpoint lower (s : string) : string :=
  match s with
  | EmptyString => EmptyString
  | String c s' => String (lower_char c) (lower s')
  end.

Definition str_of_Z (z : Z) : string := NilZero.string_of_int (Z.to_int z).

Definition hex_digit (n : Z) : ascii :=
  if n <? 10 then chr (48 + n) else chr (87 + n).

Definition quote1 : ascii := "'"%char.
Definition quote2 : ascii := "034"%char.
Definition backslash : ascii := "\"%char.

Fixpoint mem_char (c : ascii) (s : string) : bool :=
  match s with
  | EmptyString => false
  | String c' s' => Ascii.eqb c c' || mem_char c s'
  end.

(** Code points below 256 that [repr] writes as they are. *)
Definition printable (n : Z) : bool :=
  between 32 126 n || (between 161 255 n && negb (n =? 173)).

Definition repr_char (q c : ascii) : string :=
  let n := code c in
  if Ascii.eqb c q || Ascii.eqb c backslash then String backslash (String c EmptyString)
  else if n =? 9 then "\t"
  else if n =? 10 then "\n"
  else if n =? 13 then "\r"
  else if printable n then String c EmptyString
  else String backslash (String "x" (String (hex_digit (n / 16))
         (String (hex_digit (n mod 16)) EmptyString))).

Fixpoint repr_chars (q : ascii) (s : string) : string :=
  match s with
  | EmptyString => EmptyString
  | String c s' => repr_char q c ++ repr_chars q s'
  end.

(** [repr(s)] for a [str]: single quotes, unless the text has a single
    quote and no double quote. *)
Definition repr_str (s : string) : string :=
  let q := if mem_char quote1 s && negb (mem_char quote2 s) then quote2 else quote1 in
  String q (repr_chars q s ++ String q EmptyString).

Fixpoint repr (v : value) : string :=
  match v with
  | VNone => "None"
  | VBool b => if b then "True" else "False"
  | VInt z => str_of_Z z
  | VStr s => repr_str s
  | VList l => "[" ++ String.concat ", " (map repr l) ++ "]"
  | VDict d =>
      "{" ++ String.concat ", "
               (map (fun kv => let '(k, x) := kv in repr_str k ++ ": " ++ repr x) d)
          ++ "}"
  end.

(** [str(v)], which is also [format(v, '')], the conversion of a
    replacement field [{v}] of an f-string. *)
Definition str (v : value) : string :=
  match v with
  | VStr s => s
  | _ => repr v
  end.

(** *** Exceptions *)

(** The subclasses of [httpx.RequestError] ([httpx/_exceptions.py]):
    the transport errors, [DecodingError] and [TooManyRedirects]. *)
Inductive request_error : Type :=
| ConnectTimeout | ReadTimeout | WriteTimeout | PoolTimeout
| ConnectError | ReadError | WriteError | CloseError
| LocalProtocolError | RemoteProtocolError
| ProxyError | UnsupportedProtocol
| DecodingError | TooManyRedirects.

(** Exception classes.  [Exception_] is the builtin [Exception] itself.
    In httpx, [HTTPStatusError] and [RequestError] are the two direct
    subclasses of [HTTPError]; neither derives from the other.
    [HTTPException] is FastAPI's, with its status code; its argument is
    the detail. *)
Inductive exn_class : Type :=
| Exception_
| ValueError
| JSONDecodeError
| KeyError
| IndexError
| TypeError
| AttributeError
| HTTPStatusError
| RequestError (k : request_error)
| HTTPException (status_code : Z).

(** An exception raised with one argument, [cls(arg)]. *)
Record exn : Type := Exn { exn_class_of : exn_class; exn_arg : value }.

Definition is_KeyError (e : exn) : bool :=
  match exn_class_of e with KeyError => true | _ => false end.

(** [isinstance(e, httpx.RequestError)] *)
Definition is_RequestError (e : exn) : bool :=
  match exn_class_of e with RequestError _ => true | _ => false end.

(** [isinstance(e, Exception)]: every class above derives from it. *)
Definition is_Exception (e : exn) : bool := true.

(** [str(e)]: the argument's [str]; for a [KeyError] its [repr]; for an
    [HTTPException] the status code, a colon and the detail. *)
Definition str_exn (e : exn) : string :=
  match exn_class_of e with
  | KeyError => repr (exn_arg e)
  | HTTPException c => str_of_Z c ++ ": " ++ str (exn_arg e)
  | _ => str (exn_arg e)
  end.

Inductive result (A : Type) : Type :=
| Ok (a : A)
| Raise (e : exn).
Arguments Ok {A} a.
Arguments Raise {A} e.

(** *** [int(v)] *)

(** The characters [int] skips around a literal. *)
Definition is_space (c : ascii) : bool :=
  let n := code c in
  between 9 13 n || (n =? 32) || (n =? 133) || (n =? 160).

Definition digit (c : ascii) : option Z :=
  let n := code c in
  if between 48 57 n then Some (n - 48) else None.

Fixpoint drop_spaces (s : string) : string :=
  match s with
  | EmptyString => EmptyString
  | String c s' => if is_space c then drop_spaces s' else s
  end.

Fixpoint all_spaces (s : string) : bool :=
  match s with
  | EmptyString => true
  | String c s' => is_space c && all_spaces s'
  end.

(** The digits after the first one; an underscore stands between two
    digits only, and only spaces may follow the last digit. *)
Fixpoint digits (acc : Z) (after_underscore : bool) (s : string) : option Z :=
  match s with
  | EmptyString => if after_underscore then None else Some acc
  | String c s' =>
      if Ascii.eqb c "_" then
        if after_underscore then None else digits acc true s'
      else
        match digit c with
        | Some d => digits (10 * acc + d) false s'
        | None => if negb after_underscore && all_spaces s then Some acc else None
        end
  end.

Definition magnitude (s : string) : option Z :=
  match s with
  | EmptyString => None
  | String c s' =>
      match digit c with
      | Some d => digits d false s'
      | None => None
      end
  end.

(** The value of a base-10 literal, [None] when [int] rejects the text. *)
Definition int_of_str (s : string) : option Z :=
  match drop_spaces s with
  | String "-" s' => option_map Z.opp (magnitude s')
  | String "+" s' => magnitude s'
  | s' => magnitude s'
  end.

Definition int_ (v : value) : result Z :=
  match v with
  | VInt z => Ok z
  | VBool b => Ok (if b then 1 else 0)
  | VStr s =>
      match int_of_str s with
      | Some z => Ok z
      | None =>
          Raise (Exn ValueError
                   (VStr ("invalid literal for int() with base 10: " ++ repr_str s)))
      end
  | _ =>
      Raise (Exn TypeError
               (VStr ("int() argument must be a string, a bytes-like object or a real number, not '"
                        ++ type_name v ++ "'")))
  end.

(** *** Methods and subscripts *)

Definition no_attribute (v : value) (name : string) : exn :=
  Exn AttributeError
      (VStr ("'" ++ type_name v ++ "' object has no attribute '" ++ name ++ "'")).

(** [dict.get(d, key, default)] *)
Definition dict_get (d : dict) (key : string) (default : value) : value :=
  match lookup key d with
  | Some x => x
  | None => default
  end.

(** [v.get(key, default)] *)
Definition get (v : value) (key : string) (default : value) : result value :=
  match v with
  | VDict d => Ok (dict_get d key default)
  | _ => Raise (no_attribute v "get")
  end.

(** [v.lower()] *)
Definition lower_ (v : value) : result string :=
  match v with
  | VStr s => Ok (lower s)
  | _ => Raise (no_attribute v "lower")
  end.

(** [d[key]] on a dict *)
Definition getitem (d : dict) (key : string) : result value :=
  match lookup key d with
  | Some x => Ok x
  | None => Raise (Exn KeyError (VStr key))
  end.

(** [v[0]]; the keys of a [VDict] are strings, so none of them is [0]. *)
Definition first (v : value) : result value :=
  match v with
  | VList (x :: _) => Ok x
  | VList [] => Raise (Exn IndexError (VStr "list index out of range"))
  | VStr (String c _) => Ok (VStr (String c EmptyString))
  | VStr EmptyString => Raise (Exn IndexError (VStr "string index out of range"))
  | VDict _ => Raise (Exn KeyError (VInt 0))
  | _ => Raise (Exn TypeError (VStr ("'" ++ type_name v ++ "' object is not subscriptable")))
  end.

(** The items of a sequence that [str.join] accepts: all of them [str]. *)
Fixpoint join_items (i : Z) (l : list value) : result (list string) :=
  match l with
  | [] => Ok []
  | VStr s :: l' =>
      match join_items (i + 1) l' with
      | Ok ss => Ok (s :: ss)
      | Raise e => Raise e
      end
  | x :: _ =>
      Raise (Exn TypeError
               (VStr ("sequence item " ++ str_of_Z i ++ ": expected str instance, "
                        ++ type_name x ++ " found")))
  end.

Fixpoint chars (s : string) : list string :=
  match s with
  | EmptyString => []
  | String c s' => String c EmptyString :: chars s'
  end.

(** [sep.join(v)]: over the items of a list, the characters of a [str]
    or the keys of a dict. *)
Definition join (sep : string) (v : value) : result string :=
  match v with
  | VList l =>
      match join_items 0 l with
      | Ok ss => Ok (String.concat sep ss)
      | Raise e => Raise e
      end
  | VStr s => Ok (String.concat sep (chars s))
  | VDict d => Ok (String.concat sep (map fst d))
  | _ => Raise (Exn TypeError (VStr "can only join an iterable"))
  end.

(** [x in l] for a list of [str] and a [str] [x] *)
Definition mem (x : string) (l : list string) : bool :=
  existsb (String.eqb x) l.

End Py.

(** ** Effects: calls to [logging] and the provider behind one POST *)

Module Eff.
Import Py.

Inductive log_level : Type := DEBUG | INFO | ERROR.

(** One call [logging.<level>(message, exc_info=...)]. *)
Record log_record : Type :=
  LogRecord { levelname : log_level; message : string; exc_info : bool }.

(** The arguments of [client.post] and the client's timeout in seconds;
    [data] is the object handed to [json.dumps]. *)
Record http_request : Type :=
  HttpRequest {
    url : string;
    data : value;
    headers : list (string * string);
    timeout : Z }.

(** What the program reads of an [httpx.Response]: the status code, the
    message httpx gives the [HTTPStatusError] of that response, and what
    [response.json()] returns or raises. *)
Record response : Type :=
  Response {
    status_code : Z;
    status_error : string;
    json : result value }.

Inductive post_outcome : Type :=
| PostReturns (r : response)
| PostRaises (e : exn).

(** The state threaded through the program: the log calls made so far,
    the requests sent so far (oldest first), and the provider, which
    answers a POST knowing every request sent up to and including it. *)
Record world : Type :=
  World {
    logged : list log_record;
    sent : list http_request;
    provider : list http_request -> post_outcome }.

Definition M (A : Type) : Type := world -> result A * world.

Definition ret {A : Type} (a : A) : M A := fun w => (Ok a, w).

Definition raise {A : Type} (e : exn) : M A := fun w => (Raise e, w).

Definition bind {A B : Type} (m : M A) (k : A -> M B) : M B :=
  fun w =>
    match m w with
    | (Ok a, w') => k a w'
    | (Raise e, w') => (Raise e, w')
    end.

Definition lift {A : Type} (r : result A) : M A := fun w => (r, w).

(** [try: body  except C1 as e: h1  except C2 as e: h2 ...]: the first
    clause whose class test accepts the exception handles it; what a
    handler raises is not offered to the clauses after it. *)
Fixpoint handle {A : Type} (clauses : list ((exn -> bool) * (exn -> M A)))
    (e : exn) : M A :=
  match clauses with
  | [] => raise e
  | (catches, handler) :: rest =>
      if catches e then handler e else handle rest e
  end.

Definition try_except {A : Type} (body : M A)
    (clauses : list ((exn -> bool) * (exn -> M A))) : M A :=
  fun w =>
    match body w with
    | (Ok a, w') => (Ok a, w')
    | (Raise e, w') => handle clauses e w'
    end.

Definition log_call (r : log_record) : M unit :=
  fun w => (Ok tt, World (logged w ++ [r])%list (sent w) (provider w)).

Definition logging_debug (msg : string) : M unit := log_call (LogRecord DEBUG msg false).
Definition logging_info (msg : string) : M unit := log_call (LogRecord INFO msg false).
Definition logging_error (msg : string) (exc : bool) : M unit :=
  log_call (LogRecord ERROR msg exc).

(** [await client.post(...)]: the request is sent, and the provider's
    answer to it is a response or an exception. *)
Definition post (req : http_request) : M response :=
  fun w =>
    let requests := (sent w ++ [req])%list in
    let w' := World (logged w) requests (provider w) in
    match provider w requests with
    | PostReturns r => (Ok r, w')
    | PostRaises e => (Raise e, w')
    end.

(** [response.raise_for_status()]: nothing for a 2xx status, and an
    [HTTPStatusError] otherwise. *)
Definition raise_for_status (r : response) : result unit :=
  if between 200 299 (status_code r) then Ok tt
  else Raise (Exn HTTPStatusError (VStr (status_error r))).

End Eff.

Declare Scope py_scope.
Delimit Scope py_scope with py.
Notation "x <- m ;; k" := (Eff.bind m (fun x => k))
  (at level 61, m at next level, right associativity) : py_scope.
Notation "m ;; k" := (Eff.bind m (fun _ => k))
  (at level 61, right associativity) : py_scope.

(** ** [src/main/utilities.py] *)

Module Utilities.
Import Py Eff.
Local Open Scope py_scope.

Definition nl : string := String (chr 10) EmptyString.

Definition generate_prompt_assessment (assessment_data : dict) : M string :=
  let required_keys := ["role"; "card"] in
  if negb (forallb (fun key => contains key assessment_data) required_keys) then
    raise (Exn ValueError (VStr "Missing required assessment data"))
  else
    role <- lift (getitem assessment_data "role") ;;
    card <- lift (getitem assessment_data "card") ;;
    keywords <- lift (get card "keywords" VNone) ;;
    tools <- lift (get card "tools" (VList [])) ;;
    level <- lift (get card "level" VNone) ;;
    no_of_questions <- lift (get card "noOfQuestions" VNone) ;;
    if negb (truthy keywords && is_not_None tools && truthy level
             && truthy no_of_questions) then
      raise (Exn ValueError (VStr "Missing required fields in one of the cards"))
    else
      n <- lift (int_ no_of_questions) ;;
      if n <? 1 then
        raise (Exn ValueError (VStr "Number of questions must be greater than 1"))
      else
        lowered <- lift (lower_ level) ;;
        if negb (mem lowered ["low"; "medium"; "high"]) then
          raise (Exn ValueError (VStr "Level must be 'low', 'medium', or 'high'"))
        else
          tools_str <- (if truthy tools then
                          joined <- lift (join ", " tools) ;;
                          ret (" using " ++ joined)
                        else ret EmptyString) ;;
          joined_keywords <- lift (join ", " keywords) ;;
          let prompt :=
            "I want " ++ str no_of_questions ++ " assessment questions of "
              ++ str level ++ " complexity for " ++ str role ++ " on "
              ++ joined_keywords ++ tools_str ++ "." in
          logging_debug ("Generated prompt: " ++ prompt) ;;
          ret prompt.

(** The constant part of [final_prompt], up to and including its line
    break. *)
Definition context_preamble : string :=
  "I am creating an assessment with the following specifications. "
  ++ "Low complexity should be Blooms level 1 and 2 that test recall and comprehension. "
  ++ "Medium complexity should be Blooms level 3 of type application. "
  ++ "High complexity should be Blooms level 4 of type analysis, preferably scenario-based. "
  ++ nl.

Definition example_format : string :=
  "MCQ strictly has to be in below format:" ++ nl
  ++ "Format:" ++ nl ++ " **Question 1 question**" ++ nl
  ++ "A. Option 1" ++ nl
  ++ "B. Option 2" ++ nl
  ++ "C. Option 3" ++ nl
  ++ "D. Option 4" ++ nl
  ++ nl ++ "**Answer: Option no. Answer**" ++ nl
  ++ "MCQ Format Example:" ++ nl
  ++ "**Question 10**" ++ nl
  ++ "What is the purpose of the following code?" ++ nl
  ++ "```c" ++ nl
  ++ "int arr[] = {1, 2, 3, 4, 5};" ++ nl
  ++ "int sum, product;" ++ nl
  ++ "sum = product = 1;" ++ nl
  ++ "for (int i = 0; i < 5; i++) {" ++ nl
  ++ "  sum += arr[i];" ++ nl
  ++ "  product *= arr[i];" ++ nl
  ++ "}" ++ nl
  ++ "```" ++ nl
  ++ "A. To calculate the sum and product of all elements in the array" ++ nl
  ++ "B. To calculate the average and standard deviation of all elements in the array" ++ nl
  ++ "C. To reverse the order of elements in the array" ++ nl
  ++ "D. To sort the elements in the array" ++ nl
  ++ nl ++ "**Answer: A. To calculate the sum and product of all elements in the array**" ++ nl
  ++ "No need to separate questions topic-wise and mention the topic and Write complete answer don't change the example format, all MCQ questions should be in given format".

Section GetResult.

(** The names imported from [main.config], which is not part of this
    source tree.  The two settings objects are passed through as they
    are. *)
Variable API_KEY : string.
Variable GENERATION_CONFIG : value.
Variable SAFETY_SETTINGS : value.

Definition request_body_of (text : string) : value :=
  VDict [ ("contents", VList [VDict [("parts", VList [VDict [("text", VStr text)]])]]);
          ("generationConfig", GENERATION_CONFIG);
          ("safetySettings", SAFETY_SETTINGS) ].

Definition get_result (prompt : string) : M value :=
  let final_prompt := context_preamble ++ prompt in
  logging_debug ("Final prompt: " ++ final_prompt) ;;
  logging_info "Generating assessment content." ;;
  let apiUrl :=
    "https://generativelanguage.googleapis.com/v1beta/models/gemini-pro:generateContent?key="
      ++ API_KEY in
  let request_body := request_body_of (prompt ++ example_format) in
  let headers := [("Content-Type", "application/json")] in
  try_except
    (response <- post (HttpRequest apiUrl request_body headers 1000) ;;
     lift (raise_for_status response) ;;
     parsed <- lift (json response) ;;
     candidates <- lift (get parsed "candidates" VNone) ;;
     candidate <- lift (first candidates) ;;
     content <- lift (get candidate "content" VNone) ;;
     parts <- lift (get content "parts" VNone) ;;
     part <- lift (first parts) ;;
     answer <- lift (get part "text" VNone) ;;
     logging_info "Received response from API." ;;
     logging_debug ("Generated content: " ++ str answer) ;;
     ret answer)
    [ (is_RequestError,
       fun e =>
         logging_error "Service Exception:" true ;;
         raise (Exn Exception_ (VStr "Error in getting response from Gemini API"))) ].

End GetResult.

(** The string at [contents[0].parts[0].text] of a request body. *)
Definition text_field (body : value) : option string :=
  match body with
  | VDict d =>
      match lookup "contents" d with
      | Some (VList (VDict c :: _)) =>
          match lookup "parts" c with
          | Some (VList (VDict p :: _)) =>
              match lookup "text" p with
              | Some (VStr s) => Some s
              | _ => None
              end
          | _ => None
          end
      | _ => None
      end
  | _ => None
  end.

End Utilities.

(** ** [src/main/routes.py] *)

Module Routes.
Import Py Eff.
Local Open Scope py_scope.

Record Card : Type :=
  MkCard {
    keywords : list string;
    tools : list string;
    level : string;
    noOfQuestions : Z }.

Record AssessmentRequest : Type :=
  MkAssessmentRequest {
    role : string;
    cards : list Card }.

Definition list_of_str (l : list string) : value := VList (map VStr l).

(** [card.dict()] and [request.dict()] of the two pydantic models *)
Definition Card_dict (c : Card) : value :=
  VDict [ ("keywords", list_of_str (keywords c));
          ("tools", list_of_str (tools c));
          ("level", VStr (level c));
          ("noOfQuestions", VInt (noOfQuestions c)) ].

Definition AssessmentRequest_dict (r : AssessmentRequest) : dict :=
  [ ("role", VStr (role r));
    ("cards", VList (map Card_dict (cards r))) ].

Definition hello : M value := ret (VStr "Hello From Assessment Creator Back-End").

Section Endpoint.

(** [main.services.generate_assessment], which is not part of this
    source tree: any computation from the request's dict. *)
Variable generate_assessment : dict -> M value.

Definition generate_assessment_endpoint (request : AssessmentRequest) : M value :=
  try_except
    (let assessment_data := AssessmentRequest_dict request in
     response <- generate_assessment assessment_data ;;
     ret (VDict [("assessment", response)]))
    [ (is_KeyError,
       fun e =>
         raise (Exn (HTTPException 400)
                    (VStr ("Missing key in input data: " ++ str_exn e))));
      (is_Exception,
       fun e =>
         logging_error ("An error occurred: " ++ str_exn e) true ;;
         raise (Exn (HTTPException 500)
                    (VStr ("An error occurred: " ++ str_exn e)))) ].

End Endpoint.

(** What FastAPI answers for the outcome of a path operation: status 200
    with the returned object as JSON, the status and [{"detail": ...}] of
    a raised [HTTPException], and a plain 500 for any other exception. *)
Definition http_response (outcome : result value) : Z * value :=
  match outcome with
  | Ok body => (200, body)
  | Raise e =>
      match exn_class_of e with
      | HTTPException status => (status, VDict [("detail", exn_arg e)])
      | _ => (500, VStr "Internal Server Error")
      end
  end.

End Routes.

(** ** Vocabulary of the statements *)

Module Spec.
Import Py Eff.

Definition allowed_levels : list string := ["low"; "medium"; "high"].

(** The rendering rule as the specification words it: the suffix is
    [" using "] and the comma-joined tools when there are tools, and
    empty otherwise. *)
Definition tools_suffix (tools : list string) : string :=
  match tools with
  | [] => EmptyString
  | _ :: _ => " using " ++ String.concat ", " tools
  end.

Definition rendered_prompt (role level : string) (noOfQuestions : Z)
    (keywords tools : list string) : string :=
  "I want " ++ str_of_Z noOfQuestions ++ " assessment questions of " ++ level
    ++ " complexity for " ++ role ++ " on " ++ String.concat ", " keywords
    ++ tools_suffix tools ++ ".".

(** [sub in s] *)
Definition occurs_in (sub s : string) : Prop :=
  exists pre post, s = pre ++ sub ++ post.

(** The world after one more call to [logging]. *)
Definition with_log (r : log_record) (w : world) : world :=
  World (logged w ++ [r])%list (sent w) (provider w).

(** The world after one more request. *)
Definition with_request (req : http_request) (w : world) : world :=
  World (logged w) (sent w ++ [req])%list (provider w).

(** A world with nothing logged and nothing sent yet. *)
Definition initial_world (provider : list http_request -> post_outcome) : world :=
  World [] [] provider.

(** A provider that cannot be reached. *)
Definition unreachable : list http_request -> post_outcome :=
  fun _ => PostRaises (Exn (RequestError ConnectError)
                           (VStr "All connection attempts failed")).

(** A provider that answers every request with the given status. *)
Definition answering_status (status : Z) : list http_request -> post_outcome :=
  fun _ => PostReturns
             (Response status "Server error"
                (Raise (Exn JSONDecodeError
                          (VStr "Expecting value: line 1 column 1 (char 0)")))).

(** The request [get_result] sends for a prompt. *)
Definition request_for (API_KEY : string) (GENERATION_CONFIG SAFETY_SETTINGS : value)
    (prompt : string) : http_request :=
  HttpRequest
    ("https://generativelanguage.googleapis.com/v1beta/models/gemini-pro:generateContent?key="
       ++ API_KEY)
    (Utilities.request_body_of GENERATION_CONFIG SAFETY_SETTINGS
       (prompt ++ Utilities.example_format))
    [("Content-Type", "application/json")]
    1000.

(** The world once [get_result] has logged its two opening lines. *)
Definition announced (prompt : string) (w : world) : world :=
  with_log (LogRecord INFO "Generating assessment content." false)
    (with_log (LogRecord DEBUG
                 ("Final prompt: " ++ Utilities.context_preamble ++ prompt) false) w).

(** The generic failure of the generation client. *)
Definition provider_failure : exn :=
  Exn Exception_ (VStr "Error in getting response from Gemini API").

(** An [assessment_data] dict with the two keys, and cards with and
    without the [tools] key. *)
Definition assessment_data (role : string) (card : value) : dict :=
  [("role", VStr role); ("card", card)].

Definition card (keywords tools : list string) (level : string) (n : value) : value :=
  VDict [ ("keywords", Routes.list_of_str keywords);
          ("tools", Routes.list_of_str tools);
          ("level", VStr level);
          ("noOfQuestions", n) ].

Definition card_without_tools (keywords : list string) (level : string) (n : value)
    : value :=
  VDict [ ("keywords", Routes.list_of_str keywords);
          ("level", VStr level);
          ("noOfQuestions", n) ].

Definition value_error (msg : string) : exn := Exn ValueError (VStr msg).

(** What the data model asks of an input, field by field: the dict has
    a role and a card; the card's keywords are a non-empty sequence of
    strings, its tools a sequence of strings, its level one of the
    allowed ones whatever the case, its count an integer from 1 up. *)
Definition has_role_and_card (d : dict) (role : string) (c : dict) : Prop :=
  lookup "role" d = Some (VStr role) /\ lookup "card" d = Some (VDict c).

Definition valid_keywords (c : dict) (keywords : list string) : Prop :=
  lookup "keywords" c = Some (Routes.list_of_str keywords) /\ keywords <> [].

Definition valid_tools (c : dict) (tools : list string) : Prop :=
  lookup "tools" c = Some (Routes.list_of_str tools).

Definition valid_level (c : dict) (level : string) : Prop :=
  lookup "level" c = Some (VStr level) /\ mem (lower level) allowed_levels = true.

Definition valid_count (c : dict) (n : Z) : Prop :=
  lookup "noOfQuestions" c = Some (VInt n) /\ 1 <= n.

End Spec.

(** ** Properties *)

Import Py Eff Utilities Routes Spec.

(** *** The builtins on concrete inputs *)

Example lower_mixed_case : lower "HiGh Level-3" = "high level-3".
Proof. reflexivity. Qed.

Example repr_of_key : repr_str "role" = "'role'".
Proof. reflexivity. Qed.

Example repr_escapes : repr_str ("a" ++ nl ++ "b\c") = "'a\nb\\c'".
Proof. reflexivity. Qed.

Example str_of_nested :
  str (VList [VInt 1; VStr "a"; VNone; VBool true; VDict [("k", VInt (-2))]])
  = "[1, 'a', None, True, {'k': -2}]".
Proof. reflexivity. Qed.

Example int_of_padded : int_of_str "  +12 " = Some 12.
Proof. reflexivity. Qed.

Example int_of_grouped : int_of_str "-1_000" = Some (-1000).
Proof. reflexivity. Qed.

Example int_of_doubled_underscore : int_of_str "1__0" = None.
Proof. reflexivity. Qed.

Example int_of_spaced_sign : int_of_str "- 1" = None.
Proof. reflexivity. Qed.

Example int_of_list :
  int_ (VList [VInt 1])
  = Raise (Exn TypeError
             (VStr "int() argument must be a string, a bytes-like object or a real number, not 'list'")).
Proof. reflexivity. Qed.

Example join_of_characters : join ", " (VStr "abc") = Ok "a, b, c".
Proof. reflexivity. Qed.

Example join_of_mixed :
  join ", " (VList [VStr "a"; VInt 1])
  = Raise (Exn TypeError (VStr "sequence item 1: expected str instance, int found")).
Proof. reflexivity. Qed.

Example str_of_key_error : str_exn (Exn KeyError (VStr "role")) = "'role'".
Proof. reflexivity. Qed.

Example str_of_value_error : str_exn (Exn ValueError (VStr "role")) = "role".
Proof. reflexivity. Qed.

(** *** Auxiliary facts about the builtins *)

Lemma lookup_contains (key : string) (d : dict) (v : value) :
  lookup key d = Some v -> contains key d = true.
Proof.
  induction d as [| [k x] d IH]; simpl; [discriminate |].
  destruct (String.eqb k key); auto.
Qed.

Lemma contains_lookup (key : string) (d : dict) :
  contains key d = true -> exists v, lookup key d = Some v.
Proof.
  induction d as [| [k x] d IH]; simpl; [discriminate |].
  destruct (String.eqb k key); eauto.
Qed.

Lemma join_items_strs (l : list string) (i : Z) :
  join_items i (map VStr l) = Ok l.
Proof.
  revert i. induction l as [| s l IH]; intros i; simpl; [reflexivity |].
  now rewrite IH.
Qed.

Lemma join_list_of_str (sep : string) (l : list string) :
  join sep (list_of_str l) = Ok (String.concat sep l).
Proof.
  unfold join, list_of_str. now rewrite join_items_strs.
Qed.

Lemma truthy_list_of_str (l : list string) :
  truthy (list_of_str l) = match l with [] => false | _ :: _ => true end.
Proof. now destruct l. Qed.

Lemma allowed_level_truthy (level : string) :
  mem (lower level) allowed_levels = true -> truthy (VStr level) = true.
Proof. destruct level; [discriminate | reflexivity]. Qed.

Lemma string_app_inv_head (s a b : string) : s ++ a = s ++ b -> a = b.
Proof.
  induction s as [| c s IH]; simpl; intros H; [exact H |].
  injection H as H. auto.
Qed.

Lemma string_app_assoc (a b c : string) : (a ++ b) ++ c = a ++ b ++ c.
Proof.
  induction a as [| x a IH]; simpl; [reflexivity | now rewrite IH].
Qed.

Lemma string_length_app (a b : string) :
  String.length (a ++ b) = (String.length a + String.length b)%nat.
Proof.
  induction a as [| x a IH]; simpl; [reflexivity | now rewrite IH].
Qed.

(** *** Stepping through the monadic code *)

Ltac run_bind := unfold bind at 1; unfold lift at 1; cbv beta.
Ltac run_getitem H := run_bind; unfold getitem at 1; rewrite H; cbv beta iota.
Ltac run_get := run_bind; unfold get at 1; cbv beta iota.

(** The checks before the card is read: both keys are there; then the
    four fields are read from the card. *)
Ltac enter_card Hrole Hcard :=
  unfold generate_prompt_assessment; cbn [forallb];
  rewrite (lookup_contains _ _ _ Hrole), (lookup_contains _ _ _ Hcard);
  cbn [andb negb];
  run_getitem Hrole; run_getitem Hcard;
  run_get; run_get; run_get; run_get.

Lemma dict_get_present (d : dict) (key : string) (default v : value) :
  lookup key d = Some v -> dict_get d key default = v.
Proof. unfold dict_get. now intros ->. Qed.

Lemma dict_get_absent (d : dict) (key : string) (default : value) :
  lookup key d = None -> dict_get d key default = default.
Proof. unfold dict_get. now intros ->. Qed.

Lemma truthy_positive (n : Z) : 1 <= n -> truthy (VInt n) = true.
Proof.
  intros H. cbn [truthy]. destruct (Z.eqb_spec n 0); [lia | reflexivity].
Qed.

(** *** The four checks, in the order of the source *)

Section Checks.

Variables (d c : dict) (role_v : value) (w : world).
Hypothesis Hrole : lookup "role" d = Some role_v.
Hypothesis Hcard : lookup "card" d = Some (VDict c).

Let keywords_v := dict_get c "keywords" VNone.
Let tools_v := dict_get c "tools" (VList []).
Let level_v := dict_get c "level" VNone.
Let count_v := dict_get c "noOfQuestions" VNone.

(** Second check: a falsy field, or tools bound to [None], is reported
    as missing whatever the other fields hold. *)
Lemma missing_fields_raised :
  truthy keywords_v && is_not_None tools_v && truthy level_v && truthy count_v = false ->
  generate_prompt_assessment d w
  = (Raise (value_error "Missing required fields in one of the cards"), w).
Proof.
  intros H. enter_card Hrole Hcard.
  fold keywords_v tools_v level_v count_v. now rewrite H.
Qed.

(** Third check: with every field in place, a count below 1 is
    reported whatever the level is. *)
Lemma count_below_one_raised (n : Z) :
  truthy keywords_v && is_not_None tools_v && truthy level_v && truthy count_v = true ->
  int_ count_v = Ok n ->
  n < 1 ->
  generate_prompt_assessment d w
  = (Raise (value_error "Number of questions must be greater than 1"), w).
Proof.
  intros H Hint Hlt. enter_card Hrole Hcard.
  fold keywords_v tools_v level_v count_v. rewrite H. cbn [negb].
  run_bind. rewrite Hint. cbv beta iota.
  destruct (Z.ltb_spec n 1); [reflexivity | lia].
Qed.

(** Fourth check: with a count of at least 1, a level outside the
    allowed ones is reported. *)
Lemma level_outside_raised (n : Z) (lvl : string) :
  truthy keywords_v && is_not_None tools_v && truthy level_v && truthy count_v = true ->
  int_ count_v = Ok n ->
  1 <= n ->
  level_v = VStr lvl ->
  mem (lower lvl) allowed_levels = false ->
  generate_prompt_assessment d w
  = (Raise (value_error "Level must be 'low', 'medium', or 'high'"), w).
Proof.
  intros H Hint Hge Hlvl Hout. enter_card Hrole Hcard.
  fold keywords_v tools_v level_v count_v. rewrite H. cbn [negb].
  run_bind. rewrite Hint. cbv beta iota.
  destruct (Z.ltb_spec n 1); [lia |].
  run_bind. rewrite Hlvl. cbn [lower_].
  unfold allowed_levels in Hout. now rewrite Hout.
Qed.

End Checks.

(** First check: without the role or the card nothing else is looked
    at. *)
Lemma missing_assessment_data_raised (d : dict) (w : world) :
  contains "role" d && contains "card" d = false ->
  generate_prompt_assessment d w
  = (Raise (value_error "Missing required assessment data"), w).
Proof.
  intros H. unfold generate_prompt_assessment. cbn [forallb].
  rewrite andb_true_r, H. reflexivity.
Qed.

(** A card that passes every check is rendered by the rule of the
    specification; a card without the [tools] key is read as one with no
    tools.  The role may be any object, it is rendered by [str]. *)
Lemma prompt_of_valid_card (d c : dict) (role_v : value) (kws tls : list string)
    (lvl : string) (n : Z) (w : world) :
  lookup "role" d = Some role_v ->
  lookup "card" d = Some (VDict c) ->
  lookup "keywords" c = Some (list_of_str kws) ->
  kws <> [] ->
  lookup "tools" c = Some (list_of_str tls) \/ lookup "tools" c = None /\ tls = [] ->
  lookup "level" c = Some (VStr lvl) ->
  mem (lower lvl) allowed_levels = true ->
  lookup "noOfQuestions" c = Some (VInt n) ->
  1 <= n ->
  generate_prompt_assessment d w
  = (Ok (rendered_prompt (str role_v) lvl n kws tls),
     with_log (LogRecord DEBUG
                 ("Generated prompt: " ++ rendered_prompt (str role_v) lvl n kws tls)
                 false) w).
Proof.
  intros Hrole Hcard Hkw Hne Htools Hlvl Hallowed Hn Hpos.
  assert (Htl : dict_get c "tools" (VList []) = list_of_str tls).
  { destruct Htools as [H | [H ->]];
      [now apply dict_get_present | now apply dict_get_absent]. }
  enter_card Hrole Hcard.
  rewrite (dict_get_present _ _ _ _ Hkw), Htl, (dict_get_present _ _ _ _ Hlvl),
    (dict_get_present _ _ _ _ Hn).
  rewrite truthy_list_of_str, (allowed_level_truthy _ Hallowed), (truthy_positive _ Hpos).
  destruct kws as [| kw kws]; [congruence |].
  replace (is_not_None (list_of_str tls)) with true by reflexivity.
  cbn [andb negb].
  run_bind. cbn [int_].
  destruct (Z.ltb_spec n 1); [lia |].
  run_bind. cbn [lower_].
  unfold allowed_levels in Hallowed. rewrite Hallowed. cbn [negb].
  rewrite truthy_list_of_str.
  unfold rendered_prompt, tools_suffix.
  destruct tls as [| tl tls].
  - unfold bind at 1. unfold ret at 1. run_bind.
    rewrite join_list_of_str. reflexivity.
  - unfold bind at 1. run_bind. rewrite join_list_of_str.
    unfold ret at 1. run_bind. rewrite join_list_of_str. reflexivity.
Qed.

(** *** The rendering rule *)

(** C3. For every valid input the rendered prompt is
    "I want {noOfQuestions} assessment questions of {level} complexity
    for {role} on {keywords}{tools_suffix}." with keywords and tools
    joined by ", " in input order and the suffix empty when there are no
    tools; the Backend Engineer input of the specification gives exactly
    its sentence. *)
Theorem rendered_prompt_of_valid_input (d c : dict) (role lvl : string)
    (kws tls : list string) (n : Z) (w : world) :
  has_role_and_card d role c ->
  valid_keywords c kws ->
  valid_tools c tls ->
  valid_level c lvl ->
  valid_count c n ->
  generate_prompt_assessment d w
  = (Ok (rendered_prompt role lvl n kws tls),
     with_log (LogRecord DEBUG
                 ("Generated prompt: " ++ rendered_prompt role lvl n kws tls) false) w)
  /\ fst (generate_prompt_assessment
            (assessment_data "Backend Engineer" (card ["APIs"] [] "low" (VInt 2))) w)
     = Ok "I want 2 assessment questions of low complexity for Backend Engineer on APIs.".
Proof.
  intros [Hrole Hcard] [Hkw Hne] Htools [Hlvl Hallowed] [Hn Hpos].
  split.
  - apply (prompt_of_valid_card d c (VStr role) kws tls lvl n w); auto.
  - reflexivity.
Qed.

Lemma rendered_prompt_of_valid_input_witness :
  fst (generate_prompt_assessment
         (assessment_data "Data Engineer"
            (card ["SQL"; "ETL"] ["Airflow"; "dbt"] "Medium" (VInt 3)))
         (initial_world unreachable))
  = Ok "I want 3 assessment questions of Medium complexity for Data Engineer on SQL, ETL using Airflow, dbt.".
Proof.
  refine (f_equal fst (proj1 (rendered_prompt_of_valid_input
            (assessment_data "Data Engineer"
               (card ["SQL"; "ETL"] ["Airflow"; "dbt"] "Medium" (VInt 3)))
            [ ("keywords", list_of_str ["SQL"; "ETL"]);
              ("tools", list_of_str ["Airflow"; "dbt"]);
              ("level", VStr "Medium");
              ("noOfQuestions", VInt 3) ]
            "Data Engineer" "Medium" ["SQL"; "ETL"] ["Airflow"; "dbt"] 3
            (initial_world unreachable) _ _ _ _ _))).
  - split; reflexivity.
  - split; [reflexivity | discriminate].
  - reflexivity.
  - split; reflexivity.
  - split; [reflexivity | lia].
Defined.

(** C10. The level is rendered as it was given, although the membership
    check lower-cases it: for any otherwise valid card whose level is
    "HIGH", the prompt is the rule's sentence with "HIGH" in the level
    slot, so it contains "HIGH complexity", and it is not the sentence
    that the lower-cased level would give. *)
Theorem level_rendered_verbatim (d c : dict) (role : string) (kws tls : list string)
    (n : Z) (w : world) :
  has_role_and_card d role c ->
  valid_keywords c kws ->
  valid_tools c tls ->
  valid_count c n ->
  lookup "level" c = Some (VStr "HIGH") ->
  exists prompt,
    fst (generate_prompt_assessment d w) = Ok prompt
    /\ prompt = rendered_prompt role "HIGH" n kws tls
    /\ occurs_in "HIGH complexity" prompt
    /\ prompt <> rendered_prompt role (lower "HIGH") n kws tls.
Proof.
  intros [Hrole Hcard] [Hkw Hne] Htools [Hn Hpos] Hlvl.
  exists (rendered_prompt role "HIGH" n kws tls). repeat split.
  - rewrite (prompt_of_valid_card d c (VStr role) kws tls "HIGH" n w); auto.
  - exists ("I want " ++ str_of_Z n ++ " assessment questions of ").
    exists (" for " ++ role ++ " on " ++ String.concat ", " kws
              ++ tools_suffix tls ++ ".").
    unfold rendered_prompt. rewrite !string_app_assoc. reflexivity.
  - unfold rendered_prompt. intros H.
    apply (string_app_inv_head "I want ") in H.
    apply string_app_inv_head in H.
    apply (string_app_inv_head " assessment questions of ") in H.
    discriminate H.
Qed.

Lemma level_rendered_verbatim_witness :
  exists prompt,
    fst (generate_prompt_assessment
           (assessment_data "Site Reliability Engineer"
              (card ["Kubernetes"] ["Helm"] "HIGH" (VInt 4)))
           (initial_world unreachable)) = Ok prompt
    /\ prompt = rendered_prompt "Site Reliability Engineer" "HIGH" 4 ["Kubernetes"] ["Helm"]
    /\ occurs_in "HIGH complexity" prompt
    /\ prompt <> rendered_prompt "Site Reliability Engineer" "high" 4 ["Kubernetes"] ["Helm"].
Proof.
  refine (level_rendered_verbatim
            (assessment_data "Site Reliability Engineer"
               (card ["Kubernetes"] ["Helm"] "HIGH" (VInt 4)))
            [ ("keywords", list_of_str ["Kubernetes"]);
              ("tools", list_of_str ["Helm"]);
              ("level", VStr "HIGH");
              ("noOfQuestions", VInt 4) ]
            "Site Reliability Engineer" ["Kubernetes"] ["Helm"] 4
            (initial_world unreachable) _ _ _ _ _).
  - split; reflexivity.
  - split; [reflexivity | discriminate].
  - reflexivity.
  - split; [reflexivity | lia].
  - reflexivity.
Defined.

(** *** Validation *)

(** A level that is not allowed: the empty one is reported as a missing
    field, any other one as a level error. *)
Lemma level_rejected (d c : dict) (role : string) (kws tls : list string)
    (lvl : string) (n : Z) (w : world) :
  has_role_and_card d role c ->
  valid_keywords c kws ->
  valid_tools c tls ->
  valid_count c n ->
  lookup "level" c = Some (VStr lvl) ->
  mem (lower lvl) allowed_levels = false ->
  generate_prompt_assessment d w
  = (Raise (value_error
              match lvl with
              | EmptyString => "Missing required fields in one of the cards"
              | String _ _ => "Level must be 'low', 'medium', or 'high'"
              end), w).
Proof.
  intros [Hrole Hcard] [Hkw Hne] Htools [Hn Hpos] Hlvl Hout.
  destruct lvl as [| ch lvl].
  - apply (missing_fields_raised d c (VStr role) w Hrole Hcard).
    rewrite (dict_get_present _ _ _ _ Hlvl). cbn [truthy String.eqb negb].
    now rewrite andb_false_r.
  - apply (level_outside_raised d c (VStr role) w Hrole Hcard n (String ch lvl));
      rewrite ?(dict_get_present _ _ _ _ Hkw), ?(dict_get_present _ _ _ _ Htools),
        ?(dict_get_present _ _ _ _ Hlvl), ?(dict_get_present _ _ _ _ Hn); auto.
    rewrite truthy_list_of_str, (truthy_positive _ Hpos).
    destruct kws; [congruence | reflexivity].
Qed.

(** C6. Level acceptance is case-insensitive over low, medium, high: for
    any otherwise valid card the call succeeds exactly when the
    lower-cased level is one of the three; "HIGH" succeeds, and
    "extreme" fails with the [ValueError] that names the three allowed
    levels. *)
Theorem level_acceptance_ignores_case (d c : dict) (role : string)
    (kws tls : list string) (lvl : string) (n : Z) (w : world) :
  has_role_and_card d role c ->
  valid_keywords c kws ->
  valid_tools c tls ->
  valid_count c n ->
  lookup "level" c = Some (VStr lvl) ->
  (mem (lower lvl) allowed_levels = true ->
   fst (generate_prompt_assessment d w) = Ok (rendered_prompt role lvl n kws tls))
  /\ (mem (lower lvl) allowed_levels = false ->
      generate_prompt_assessment d w
      = (Raise (value_error
                  match lvl with
                  | EmptyString => "Missing required fields in one of the cards"
                  | String _ _ => "Level must be 'low', 'medium', or 'high'"
                  end), w))
  /\ (lvl = "HIGH" ->
      fst (generate_prompt_assessment d w) = Ok (rendered_prompt role "HIGH" n kws tls))
  /\ (lvl = "extreme" ->
      generate_prompt_assessment d w
      = (Raise (value_error "Level must be 'low', 'medium', or 'high'"), w)).
Proof.
  intros Hd Hkw Htools Hn Hlvl.
  assert (Hok : forall l, lookup "level" c = Some (VStr l) ->
                  mem (lower l) allowed_levels = true ->
                  fst (generate_prompt_assessment d w)
                  = Ok (rendered_prompt role l n kws tls)).
  { intros l Hl Hal. destruct Hd, Hkw, Hn.
    rewrite (prompt_of_valid_card d c (VStr role) kws tls l n w); auto. }
  repeat split.
  - now apply Hok.
  - intros Hout. now apply (level_rejected d c role kws tls lvl n w).
  - intros ->. now apply Hok.
  - intros ->. now apply (level_rejected d c role kws tls "extreme" n w).
Qed.

Lemma level_acceptance_ignores_case_witness :
  fst (generate_prompt_assessment
         (assessment_data "Analyst" (card ["Statistics"] [] "MeDiUm" (VInt 1)))
         (initial_world unreachable))
  = Ok "I want 1 assessment questions of MeDiUm complexity for Analyst on Statistics.".
Proof.
  refine (proj1 (level_acceptance_ignores_case
            (assessment_data "Analyst" (card ["Statistics"] [] "MeDiUm" (VInt 1)))
            [ ("keywords", list_of_str ["Statistics"]);
              ("tools", list_of_str []);
              ("level", VStr "MeDiUm");
              ("noOfQuestions", VInt 1) ]
            "Analyst" ["Statistics"] [] "MeDiUm" 1
            (initial_world unreachable) _ _ _ _ _) _).
  - split; reflexivity.
  - split; [reflexivity | discriminate].
  - reflexivity.
  - split; [reflexivity | lia].
  - reflexivity.
  - reflexivity.
Defined.

(** What the default of [card.get('tools', [])] does to the presence
    test: for every input with a role and an otherwise valid card, a
    card without the [tools] key goes through as a card with no tools,
    and the missing-fields error is raised for tools only when the key
    is bound to [None]. *)
Theorem tools_key_absent_reads_as_empty (d c : dict) (role : string)
    (kws : list string) (lvl : string) (n : Z) (w : world) :
  has_role_and_card d role c ->
  valid_keywords c kws ->
  valid_level c lvl ->
  valid_count c n ->
  (lookup "tools" c = None ->
   generate_prompt_assessment d w
   = (Ok (rendered_prompt role lvl n kws []),
      with_log (LogRecord DEBUG
                  ("Generated prompt: " ++ rendered_prompt role lvl n kws []) false) w))
  /\ (lookup "tools" c = Some VNone ->
      generate_prompt_assessment d w
      = (Raise (value_error "Missing required fields in one of the cards"), w)).
Proof.
  intros [Hrole Hcard] [Hkw Hne] [Hlvl Hallowed] [Hn Hpos]. split; intros Htools.
  - apply (prompt_of_valid_card d c (VStr role) kws [] lvl n w); auto.
  - apply (missing_fields_raised d c (VStr role) w Hrole Hcard).
    rewrite (dict_get_present _ _ _ _ Htools). cbn [is_not_None].
    now rewrite andb_false_r.
Qed.

Lemma tools_key_absent_reads_as_empty_witness :
  generate_prompt_assessment
    (assessment_data "Backend Engineer" (card_without_tools ["APIs"] "low" (VInt 2)))
    (initial_world unreachable)
  = (Ok "I want 2 assessment questions of low complexity for Backend Engineer on APIs.",
     with_log (LogRecord DEBUG
                 "Generated prompt: I want 2 assessment questions of low complexity for Backend Engineer on APIs."
                 false)
       (initial_world unreachable)).
Proof.
  refine (proj1 (tools_key_absent_reads_as_empty
            (assessment_data "Backend Engineer"
               (card_without_tools ["APIs"] "low" (VInt 2)))
            [ ("keywords", list_of_str ["APIs"]);
              ("level", VStr "low");
              ("noOfQuestions", VInt 2) ]
            "Backend Engineer" ["APIs"] "low" 2
            (initial_world unreachable) _ _ _ _) _).
  - split; reflexivity.
  - split; [reflexivity | discriminate].
  - split; reflexivity.
  - split; [reflexivity | lia].
  - reflexivity.
Defined.

(** C2. The code at a card without the [tools] key, with valid
    keywords, level and count: no validation error is raised, the call
    returns the prompt of a card with no tools. *)
Lemma tools_key_absent_not_rejected :
  fst (generate_prompt_assessment
         (assessment_data "Backend Engineer"
            (card_without_tools ["APIs"] "low" (VInt 2)))
         (initial_world unreachable))
  = Ok "I want 2 assessment questions of low complexity for Backend Engineer on APIs."
  /\ ~ (exists e,
          fst (generate_prompt_assessment
                 (assessment_data "Backend Engineer"
                    (card_without_tools ["APIs"] "low" (VInt 2)))
                 (initial_world unreachable))
          = Raise e).
Proof.
  split; [reflexivity |].
  intros [e H]. discriminate H.
Qed.

(** The count of questions at and around the boundary, for any
    otherwise valid card: the integer 0 is falsy and stops at the second
    check; a negative integer reaches the third; 1 passes. *)
Lemma count_boundary (d c : dict) (role : string) (kws tls : list string)
    (lvl : string) (n : Z) (w : world) :
  has_role_and_card d role c ->
  valid_keywords c kws ->
  valid_tools c tls ->
  valid_level c lvl ->
  lookup "noOfQuestions" c = Some (VInt n) ->
  generate_prompt_assessment d w
  = if n =? 0 then
      (Raise (value_error "Missing required fields in one of the cards"), w)
    else if n <? 1 then
      (Raise (value_error "Number of questions must be greater than 1"), w)
    else
      (Ok (rendered_prompt role lvl n kws tls),
       with_log (LogRecord DEBUG
                   ("Generated prompt: " ++ rendered_prompt role lvl n kws tls) false) w).
Proof.
  intros [Hrole Hcard] [Hkw Hne] Htools [Hlvl Hallowed] Hn.
  destruct (Z.eqb_spec n 0) as [-> | Hnz].
  - apply (missing_fields_raised d c (VStr role) w Hrole Hcard).
    rewrite (dict_get_present _ _ _ _ Hn). cbn [truthy Z.eqb negb].
    now rewrite andb_false_r.
  - destruct (Z.ltb_spec n 1) as [Hlt | Hge].
    + apply (count_below_one_raised d c (VStr role) w Hrole Hcard n); auto.
      * rewrite (dict_get_present _ _ _ _ Hkw), (dict_get_present _ _ _ _ Htools),
          (dict_get_present _ _ _ _ Hlvl), (dict_get_present _ _ _ _ Hn).
        rewrite truthy_list_of_str, (allowed_level_truthy _ Hallowed).
        cbn [truthy]. destruct (Z.eqb_spec n 0); [contradiction |].
        destruct kws; [congruence | reflexivity].
      * now rewrite (dict_get_present _ _ _ _ Hn).
    + apply (prompt_of_valid_card d c (VStr role) kws tls lvl n w); auto.
Qed.

(** A count given as the text "0" is truthy, so it does reach the third
    check. *)
Example zero_as_text_reaches_count_check (w : world) :
  generate_prompt_assessment
    (assessment_data "Backend Engineer" (card ["APIs"] [] "low" (VStr "0"))) w
  = (Raise (value_error "Number of questions must be greater than 1"), w).
Proof. reflexivity. Qed.

(** C5. The code at noOfQuestions = 0 and at noOfQuestions = 1, for the
    card of the specification's example: 0 is rejected, by the second
    check and with its message, not by the count check; 1 is accepted. *)
Theorem zero_count_reported_as_missing_fields (w : world) :
  generate_prompt_assessment
    (assessment_data "Backend Engineer" (card ["APIs"] [] "low" (VInt 0))) w
  = (Raise (value_error "Missing required fields in one of the cards"), w)
  /\ value_error "Missing required fields in one of the cards"
     <> value_error "Number of questions must be greater than 1"
  /\ fst (generate_prompt_assessment
            (assessment_data "Backend Engineer" (card ["APIs"] [] "low" (VInt 1))) w)
     = Ok "I want 1 assessment questions of low complexity for Backend Engineer on APIs.".
Proof.
  repeat split. discriminate.
Qed.

(** C7. The code at an input that violates the count condition and the
    level condition: with the integer 0 the error is the one of the
    second check; with -1 it is the one of the third check, before the
    level is looked at. *)
Theorem zero_count_stops_at_second_check (w : world) :
  generate_prompt_assessment
    (assessment_data "Backend Engineer" (card ["APIs"] [] "extreme" (VInt 0))) w
  = (Raise (value_error "Missing required fields in one of the cards"), w)
  /\ generate_prompt_assessment
       (assessment_data "Backend Engineer" (card ["APIs"] [] "extreme" (VInt (-1)))) w
     = (Raise (value_error "Number of questions must be greater than 1"), w).
Proof.
  split; reflexivity.
Qed.

(** *** The generation client *)

(** The two opening log lines, then into the [try] up to the POST. *)
Ltac enter_try :=
  unfold get_result;
  unfold bind at 1; unfold logging_debug at 1; unfold log_call at 1;
  unfold bind at 1; unfold logging_info at 1; unfold log_call at 1; cbv beta iota;
  unfold try_except; unfold bind at 1; unfold post at 1; cbn [sent logged provider].

Section Client.

Variables (key : string) (generation safety : value).

(** A failure of the POST that is an [httpx.RequestError] is logged and
    replaced by the generic failure. *)
Lemma request_error_translated (prompt : string) (w : world) (k : request_error)
    (arg : value) :
  provider w (sent w ++ [request_for key generation safety prompt])%list
  = PostRaises (Exn (RequestError k) arg) ->
  get_result key generation safety prompt w
  = (Raise provider_failure,
     with_log (LogRecord ERROR "Service Exception:" true)
       (with_request (request_for key generation safety prompt) (announced prompt w))).
Proof.
  intros H. enter_try. unfold request_for in H. rewrite H. reflexivity.
Qed.

(** Any other failure of the POST leaves [get_result] as it is. *)
Lemma other_post_failure_propagates (prompt : string) (w : world) (e : exn) :
  provider w (sent w ++ [request_for key generation safety prompt])%list
  = PostRaises e ->
  is_RequestError e = false ->
  get_result key generation safety prompt w
  = (Raise e, with_request (request_for key generation safety prompt) (announced prompt w)).
Proof.
  intros H He. enter_try. unfold request_for in H. rewrite H.
  cbn [handle]. rewrite He. reflexivity.
Qed.

(** A response whose status is not 2xx: the [HTTPStatusError] of
    [raise_for_status] is not a [RequestError], so no clause handles it
    and it leaves [get_result] unchanged. *)
Lemma status_error_propagates (prompt : string) (w : world) (r : response) :
  provider w (sent w ++ [request_for key generation safety prompt])%list
  = PostReturns r ->
  between 200 299 (status_code r) = false ->
  get_result key generation safety prompt w
  = (Raise (Exn HTTPStatusError (VStr (status_error r))),
     with_request (request_for key generation safety prompt) (announced prompt w)).
Proof.
  intros H Hst. enter_try. unfold request_for in H. rewrite H.
  run_bind. unfold raise_for_status. rewrite Hst. reflexivity.
Qed.

(** A 2xx response whose body has a string at
    [candidates[0].content.parts[0].text]: that string is returned as it
    is. *)
Lemma answer_text_returned (prompt : string) (w : world) (r : response)
    (body candidate content part : dict) (candidates parts : list value)
    (answer : string) :
  provider w (sent w ++ [request_for key generation safety prompt])%list
  = PostReturns r ->
  between 200 299 (status_code r) = true ->
  json r = Ok (VDict body) ->
  lookup "candidates" body = Some (VList (VDict candidate :: candidates)) ->
  lookup "content" candidate = Some (VDict content) ->
  lookup "parts" content = Some (VList (VDict part :: parts)) ->
  lookup "text" part = Some (VStr answer) ->
  get_result key generation safety prompt w
  = (Ok (VStr answer),
     with_log (LogRecord DEBUG ("Generated content: " ++ answer) false)
       (with_log (LogRecord INFO "Received response from API." false)
          (with_request (request_for key generation safety prompt)
             (announced prompt w)))).
Proof.
  intros H Hst Hjson Hc Hct Hp Ht. enter_try. unfold request_for in H. rewrite H.
  run_bind. unfold raise_for_status. rewrite Hst. cbv beta iota.
  run_bind. rewrite Hjson. cbv beta iota.
  run_get. rewrite (dict_get_present _ _ _ _ Hc).
  run_bind. cbn [first].
  run_get. rewrite (dict_get_present _ _ _ _ Hct).
  run_get. rewrite (dict_get_present _ _ _ _ Hp).
  run_bind. cbn [first].
  run_get. rewrite (dict_get_present _ _ _ _ Ht).
  reflexivity.
Qed.

End Client.

(** Computations that only log: the world they leave differs from
    the one they start in by log records added at the end.  Everything
    in the program but [post] is of this kind. *)
Definition only_logs {A : Type} (m : M A) : Prop :=
  forall w, exists later,
    snd (m w) = World (logged w ++ later)%list (sent w) (provider w).

Lemma world_eta (w : world) : World (logged w ++ [])%list (sent w) (provider w) = w.
Proof. destruct w. cbn. now rewrite app_nil_r. Qed.

Lemma only_logs_lift {A : Type} (r : result A) : only_logs (lift r).
Proof. intros w. exists []. now rewrite world_eta. Qed.

Lemma only_logs_ret {A : Type} (a : A) : only_logs (ret a).
Proof. intros w. exists []. now rewrite world_eta. Qed.

Lemma only_logs_raise {A : Type} (e : exn) : only_logs (@raise A e).
Proof. intros w. exists []. now rewrite world_eta. Qed.

Lemma only_logs_log (r : log_record) : only_logs (log_call r).
Proof. intros w. now exists [r]. Qed.

Lemma only_logs_bind {A B : Type} (m : M A) (k : A -> M B) :
  only_logs m -> (forall a, only_logs (k a)) -> only_logs (bind m k).
Proof.
  intros Hm Hk w. unfold bind. destruct (Hm w) as [l1 Hl].
  destruct (m w) as [[a | e] w']; cbn [snd] in *.
  - destruct (Hk a w') as [l2 Hl']. exists (l1 ++ l2)%list.
    rewrite Hl', Hl. cbn [logged sent provider]. now rewrite app_assoc.
  - now exists l1.
Qed.

Lemma only_logs_handle {A : Type} (clauses : list ((exn -> bool) * (exn -> M A)))
    (e : exn) :
  Forall (fun clause => forall x, only_logs (snd clause x)) clauses ->
  only_logs (handle clauses e).
Proof.
  induction 1 as [| [catches handler] rest Hc _ IH]; cbn [handle].
  - apply only_logs_raise.
  - destruct (catches e); [apply Hc | exact IH].
Qed.

Lemma only_logs_try {A : Type} (body : M A)
    (clauses : list ((exn -> bool) * (exn -> M A))) :
  only_logs body ->
  Forall (fun clause => forall x, only_logs (snd clause x)) clauses ->
  only_logs (try_except body clauses).
Proof.
  intros Hb Hc w. unfold try_except. destruct (Hb w) as [l1 Hl].
  destruct (body w) as [[a | e] w']; cbn [snd] in *.
  - now exists l1.
  - destruct (only_logs_handle clauses e Hc w') as [l2 Hl'].
    exists (l1 ++ l2)%list.
    rewrite Hl', Hl. cbn [logged sent provider]. now rewrite app_assoc.
Qed.

Create HintDb effects.
#[local] Hint Resolve only_logs_lift only_logs_ret only_logs_raise only_logs_log
  only_logs_bind : effects.

(** Validation and rendering send nothing. *)
Lemma generate_prompt_assessment_only_logs (d : dict) :
  only_logs (generate_prompt_assessment d).
Proof.
  unfold generate_prompt_assessment, logging_debug.
  destruct (negb _); [apply only_logs_raise |].
  repeat (apply only_logs_bind; [auto with effects | intros ?]);
    repeat match goal with
           | |- only_logs (if ?b then _ else _) => destruct b
           | |- only_logs (bind _ _) => apply only_logs_bind; [| intros ?]
           end; auto 10 with effects.
Qed.

(** Whatever the provider does, [get_result] sends the one request built
    from the prompt and no other, and otherwise only logs, beginning with
    the debug line that holds the preamble and the info line. *)
Lemma get_result_posts_once (key : string) (generation safety : value)
    (prompt : string) (w : world) :
  exists later,
    snd (get_result key generation safety prompt w)
    = World (logged (announced prompt w) ++ later)%list
        (sent w ++ [request_for key generation safety prompt])%list
        (provider w).
Proof.
  enter_try. fold (request_for key generation safety prompt).
  change (World _ (sent w ++ _)%list (provider w))
    with (with_request (request_for key generation safety prompt) (announced prompt w))
    at 1 2.
  set (w1 := with_request _ _).
  assert (Hw1 : forall l, World (logged w1 ++ l)%list (sent w1) (provider w1)
                = World (logged (announced prompt w) ++ l)%list
                    (sent w ++ [request_for key generation safety prompt])%list
                    (provider w)) by reflexivity.
  assert (Hhandle : forall e, only_logs
            (handle
               [(is_RequestError,
                 fun _ : exn =>
                   bind (logging_error "Service Exception:" true)
                     (fun _ => raise provider_failure) : M value)] e)).
  { intros e. apply only_logs_handle. constructor; [| constructor].
    intros x. cbn [snd]. unfold logging_error. auto with effects. }
  destruct (provider w _) as [r | e].
  - match goal with
    | |- context [let (_, _) := ?m w1 in _] =>
        assert (Hk : only_logs m)
          by (unfold logging_info, logging_debug; auto 20 with effects);
        destruct (Hk w1) as [l1 Hl]; destruct (m w1) as [[a | e] w']
    end; cbn [snd] in Hl.
    + exists l1. cbn [snd]. now rewrite Hl, Hw1.
    + destruct (Hhandle e w') as [l2 Hl']. exists (l1 ++ l2)%list.
      unfold provider_failure in Hl'. rewrite Hl', Hl.
      cbn [logged sent provider]. rewrite <- app_assoc. apply Hw1.
  - destruct (Hhandle e w1) as [l2 Hl']. exists l2.
    unfold provider_failure in Hl'. now rewrite Hl', Hw1.
Qed.

(** C1. The text sent to the provider for a prompt [p] is [p] followed by
    the output-format template: the one request of [get_result] carries
    that text at [contents[0].parts[0].text], and it is not the text
    that begins with the context preamble.  The preamble only reaches
    the debug log. *)
Theorem preamble_not_sent (key : string) (generation safety : value)
    (p : string) (w : world) :
  (exists later,
     snd (get_result key generation safety p w)
     = World (logged w
                ++ LogRecord DEBUG ("Final prompt: " ++ context_preamble ++ p) false
                :: later)%list
         (sent w ++ [request_for key generation safety p])%list
         (provider w))
  /\ text_field (data (request_for key generation safety p))
     = Some (p ++ example_format)
  /\ p ++ example_format <> context_preamble ++ p ++ example_format.
Proof.
  split; [| split].
  - destruct (get_result_posts_once key generation safety p w) as [later H].
    exists (LogRecord INFO "Generating assessment content." false :: later).
    rewrite H. unfold announced, with_log. cbn [logged sent provider].
    now rewrite <- !app_assoc.
  - reflexivity.
  - intros H. apply (f_equal String.length) in H.
    rewrite !string_length_app in H.
    change (String.length context_preamble) with 296%nat in H. lia.
Qed.

(** C4. The code at a provider that answers 503: [get_result] raises the
    [HTTPStatusError] of the response, which is not a [RequestError] and
    so is not replaced by the generic failure; one request was sent and
    nothing is returned. *)
Theorem status_503_raises_status_error (key : string) (generation safety : value)
    (p : string) :
  get_result key generation safety p (initial_world (answering_status 503))
  = (Raise (Exn HTTPStatusError (VStr "Server error")),
     with_request (request_for key generation safety p)
       (announced p (initial_world (answering_status 503))))
  /\ is_RequestError (Exn HTTPStatusError (VStr "Server error")) = false
  /\ Exn HTTPStatusError (VStr "Server error") <> provider_failure.
Proof.
  split; [| split].
  - exact (status_error_propagates key generation safety p
             (initial_world (answering_status 503))
             (Response 503 "Server error"
                (Raise (Exn JSONDecodeError
                          (VStr "Expecting value: line 1 column 1 (char 0)"))))
             eq_refl eq_refl).
  - reflexivity.
  - discriminate.
Qed.

(** C8. When the POST fails with a transport-level error, or any other
    [httpx.RequestError], [get_result] raises the one generic exception
    "Error in getting response from Gemini API"; the request was sent
    once and no value is returned. *)
Theorem transport_failure_raises_generic_error (key : string)
    (generation safety : value) (p : string) (w : world) (k : request_error)
    (arg : value) :
  provider w (sent w ++ [request_for key generation safety p])%list
  = PostRaises (Exn (RequestError k) arg) ->
  get_result key generation safety p w
  = (Raise (Exn Exception_ (VStr "Error in getting response from Gemini API")),
     with_log (LogRecord ERROR "Service Exception:" true)
       (with_request (request_for key generation safety p) (announced p w)))
  /\ sent (snd (get_result key generation safety p w))
     = (sent w ++ [request_for key generation safety p])%list.
Proof.
  intros H.
  pose proof (request_error_translated key generation safety p w k arg H) as E.
  split; [exact E | now rewrite E].
Qed.

Lemma transport_failure_raises_generic_error_witness :
  fst (get_result "k3y" (VDict []) (VList []) "I want 1 assessment questions."
         (initial_world unreachable))
  = Raise (Exn Exception_ (VStr "Error in getting response from Gemini API"))
  /\ List.length
       (sent (snd (get_result "k3y" (VDict []) (VList [])
                     "I want 1 assessment questions." (initial_world unreachable))))
     = 1%nat.
Proof.
  pose proof (transport_failure_raises_generic_error "k3y" (VDict []) (VList [])
                "I want 1 assessment questions." (initial_world unreachable)
                ConnectError (VStr "All connection attempts failed") eq_refl) as [E S].
  split.
  - exact (f_equal fst E).
  - exact (f_equal (@List.length _) S).
Defined.

(** *** The route *)

(** C9, as the code has it.  If the service raises a [KeyError] for key
    [k], the response is HTTP 400 and its detail is "Missing key in
    input data: " followed by [repr k], the key as Python quotes it; if
    it raises any other exception [e], the response is HTTP 500 with
    detail "An error occurred: " followed by [str(e)], which is [m] for
    an exception raised with the message [m]; if it returns the string
    [s], the response is HTTP 200 with body [{"assessment": s}]. *)
Theorem endpoint_responses (service : dict -> M value) (request : AssessmentRequest)
    (w w' : world) :
  (forall k,
     service (AssessmentRequest_dict request) w = (Raise (Exn KeyError k), w') ->
     http_response (fst (generate_assessment_endpoint service request w))
     = (400, VDict [("detail", VStr ("Missing key in input data: " ++ repr k))]))
  /\ (forall e,
        service (AssessmentRequest_dict request) w = (Raise e, w') ->
        is_KeyError e = false ->
        http_response (fst (generate_assessment_endpoint service request w))
        = (500, VDict [("detail", VStr ("An error occurred: " ++ str_exn e))]))
  /\ (forall cls m,
        service (AssessmentRequest_dict request) w = (Raise (Exn cls (VStr m)), w') ->
        match cls with KeyError | HTTPException _ => False | _ => True end ->
        http_response (fst (generate_assessment_endpoint service request w))
        = (500, VDict [("detail", VStr ("An error occurred: " ++ m))]))
  /\ (forall s,
        service (AssessmentRequest_dict request) w = (Ok (VStr s), w') ->
        http_response (fst (generate_assessment_endpoint service request w))
        = (200, VDict [("assessment", VStr s)])).
Proof.
  unfold generate_assessment_endpoint, try_except, bind.
  repeat split.
  - intros k H. rewrite H. reflexivity.
  - intros e H He. rewrite H. cbn [handle]. rewrite He. reflexivity.
  - intros cls m H Hcls. rewrite H. destruct cls; (contradiction || reflexivity).
  - intros s H. rewrite H. reflexivity.
Qed.

Lemma endpoint_responses_witness :
  http_response
    (fst (generate_assessment_endpoint
            (fun _ => raise (Exn KeyError (VStr "card")))
            (MkAssessmentRequest "Backend Engineer" [MkCard ["APIs"] [] "low" 2])
            (initial_world unreachable)))
  = (400, VDict [("detail", VStr "Missing key in input data: 'card'")]).
Proof.
  exact (proj1 (endpoint_responses
                  (fun _ => raise (Exn KeyError (VStr "card")))
                  (MkAssessmentRequest "Backend Engineer" [MkCard ["APIs"] [] "low" 2])
                  (initial_world unreachable) (initial_world unreachable))
           (VStr "card") eq_refl).
Defined.

(** C9, as stated, fails: for the key [role] the detail is not
    "Missing key in input data: role", the key comes in quotes. *)
Lemma key_error_detail_is_quoted :
  http_response
    (fst (generate_assessment_endpoint
            (fun _ => raise (Exn KeyError (VStr "role")))
            (MkAssessmentRequest "Backend Engineer" [MkCard ["APIs"] [] "low" 2])
            (initial_world unreachable)))
  = (400, VDict [("detail", VStr "Missing key in input data: 'role'")])
  /\ http_response
       (fst (generate_assessment_endpoint
               (fun _ => raise (Exn KeyError (VStr "role")))
               (MkAssessmentRequest "Backend Engineer" [MkCard ["APIs"] [] "low" 2])
               (initial_world unreachable)))
     <> (400, VDict [("detail", VStr "Missing key in input data: role")]).
Proof.
  split; [reflexivity | discriminate].
Qed.
(** *** The prompt builder as one case analysis *)

(** Every path through [generate_prompt_assessment], with the binds
    resolved: the four checks, the conversions that can raise, and the
    one log call before the return. *)
Lemma generate_prompt_assessment_cases (d : dict) (w : world) :
  generate_prompt_assessment d w
  = if negb (contains "role" d && contains "card" d) then
      (Raise (value_error "Missing required assessment data"), w)
    else
      match lookup "card" d with
      | Some (VDict c) =>
          let keywords_v := dict_get c "keywords" VNone in
          let tools_v := dict_get c "tools" (VList []) in
          let level_v := dict_get c "level" VNone in
          let count_v := dict_get c "noOfQuestions" VNone in
          if negb (truthy keywords_v && is_not_None tools_v && truthy level_v
                   && truthy count_v) then
            (Raise (value_error "Missing required fields in one of the cards"), w)
          else
            match int_ count_v with
            | Raise e => (Raise e, w)
            | Ok n =>
                if n <? 1 then
                  (Raise (value_error "Number of questions must be greater than 1"), w)
                else
                  match lower_ level_v with
                  | Raise e => (Raise e, w)
                  | Ok lowered =>
                      if negb (mem lowered allowed_levels) then
                        (Raise (value_error "Level must be 'low', 'medium', or 'high'"), w)
                      else
                        match (if truthy tools_v then join ", " tools_v
                               else Ok EmptyString) with
                        | Raise e => (Raise e, w)
                        | Ok joined_tools =>
                            match join ", " keywords_v with
                            | Raise e => (Raise e, w)
                            | Ok joined_keywords =>
                                let prompt :=
                                  "I want " ++ str count_v ++ " assessment questions of "
                                    ++ str level_v ++ " complexity for "
                                    ++ str (dict_get d "role" VNone) ++ " on "
                                    ++ joined_keywords
                                    ++ (if truthy tools_v then " using " ++ joined_tools
                                        else EmptyString)
                                    ++ "." in
                                (Ok prompt,
                                 with_log (LogRecord DEBUG ("Generated prompt: " ++ prompt)
                                             false) w)
                            end
                        end
                  end
            end
      | Some v => (Raise (no_attribute v "get"), w)
      | None => (Raise (Exn KeyError (VStr "card")), w)
      end.
Proof.
  unfold generate_prompt_assessment. cbn [forallb]. rewrite andb_true_r.
  destruct (contains "role" d) eqn:Hr; [| reflexivity].
  destruct (contains "card" d) eqn:Hc; [| reflexivity].
  cbn [andb negb].
  destruct (contains_lookup _ _ Hr) as [role_v Hrole].
  destruct (contains_lookup _ _ Hc) as [card_v Hcard].
  run_getitem Hrole. run_getitem Hcard.
  rewrite (dict_get_present _ _ VNone _ Hrole).
  destruct card_v; try reflexivity.
  run_get. run_get. run_get. run_get.
  cbv zeta.
  destruct (negb _); [reflexivity |].
  run_bind. destruct (int_ _) as [n | e]; [| reflexivity]. cbv beta iota.
  destruct (n <? 1); [reflexivity |].
  run_bind. destruct (lower_ _) as [lowered | e]; [| reflexivity]. cbv beta iota.
  unfold allowed_levels.
  destruct (negb _); [reflexivity |].
  destruct (truthy (dict_get l "tools" (VList []))).
  - unfold bind at 1. run_bind.
    destruct (join ", " (dict_get l "tools" (VList []))) as [jt | e]; [| reflexivity].
    cbv beta iota. unfold ret at 1. run_bind.
    destruct (join _ _) as [jk | e]; reflexivity.
  - unfold bind at 1. unfold ret at 1. run_bind.
    destruct (join _ _) as [jk | e]; reflexivity.
Qed.

Lemma int_raises (v : value) (e : exn) :
  int_ v = Raise e -> exn_class_of e = ValueError \/ exn_class_of e = TypeError.
Proof.
  destruct v; cbn [int_]; try (intros [= <-]; auto); try discriminate.
  destruct (int_of_str _); [discriminate | intros [= <-]; auto].
Qed.

Lemma lower_raises (v : value) (e : exn) :
  lower_ v = Raise e -> exn_class_of e = AttributeError.
Proof. destruct v; cbn [lower_]; (discriminate || now intros [= <-]). Qed.

Lemma join_items_raises (l : list value) (i : Z) (e : exn) :
  join_items i l = Raise e -> exn_class_of e = TypeError.
Proof.
  revert i. induction l as [| x l IH]; intros i; cbn [join_items]; [discriminate |].
  destruct x; try now intros [= <-].
  destruct (join_items (i + 1) l) eqn:E; [discriminate |].
  intros [= <-]. eauto.
Qed.

Lemma join_raises (sep : string) (v : value) (e : exn) :
  join sep v = Raise e -> exn_class_of e = TypeError.
Proof.
  destruct v; cbn [join]; try discriminate; try now intros [= <-].
  destruct (join_items 0 l) eqn:E; [discriminate |].
  intros [= <-]. eauto using join_items_raises.
Qed.

(** The exceptions of [generate_prompt_assessment] over the modelled
    objects (no floating-point values): the four [ValueError]s of the
    checks and what [int], [lower], [get] and [join] raise. *)
Lemma generate_prompt_assessment_raises (d : dict) (w w' : world) (e : exn) :
  generate_prompt_assessment d w = (Raise e, w') ->
  w' = w
  /\ In (exn_class_of e) [ValueError; TypeError; AttributeError]
  /\ is_KeyError e = false.
Proof.
  intros H.
  assert (G : w' = w /\ In (exn_class_of e) [ValueError; TypeError; AttributeError]).
  { rewrite generate_prompt_assessment_cases in H.
    destruct (contains "role" d) eqn:Hr;
      [| injection H as <- <-; cbn; auto].
    destruct (contains "card" d) eqn:Hc;
      [| injection H as <- <-; cbn; auto].
    cbn [andb negb] in H.
    destruct (contains_lookup _ _ Hc) as [card_v Hcard]. rewrite Hcard in H.
    destruct card_v; try (injection H as <- <-; cbn; now auto).
    cbv zeta in H.
    destruct (negb _) in H; [injection H as <- <-; cbn; now auto |].
    destruct (int_ _) as [n | e1] eqn:Hint in H;
      [| injection H as <- <-; split; [reflexivity |];
         destruct (int_raises _ _ Hint) as [-> | ->]; cbn; now auto].
    destruct (n <? 1) in H; [injection H as <- <-; cbn; now auto |].
    destruct (lower_ _) as [lowered | e1] eqn:Hlow in H;
      [| injection H as <- <-; split; [reflexivity |];
         rewrite (lower_raises _ _ Hlow); cbn; now auto].
    destruct (negb _) in H; [injection H as <- <-; cbn; now auto |].
    destruct (if truthy _ then _ else _) as [jt | e1] eqn:Hjt in H.
    - destruct (join ", " _) as [jk | e1] eqn:Hjk in H; [discriminate |].
      injection H as <- <-. split; [reflexivity |].
      rewrite (join_raises _ _ _ Hjk); cbn; now auto.
    - injection H as <- <-. split; [reflexivity |].
      destruct (truthy _) in Hjt; [| discriminate].
      rewrite (join_raises _ _ _ Hjt); cbn; now auto. }
  destruct G as [-> Hin]. repeat split; [exact Hin |].
  unfold is_KeyError.
  destruct Hin as [<- | [<- | [<- | []]]]; reflexivity.
Qed.

(** Validation fails before anything happens: whenever
    [generate_prompt_assessment] raises, the world is the one it started
    in (nothing logged, nothing sent), and the exception is not a
    [KeyError]. *)
Theorem validation_failure_has_no_effect (d : dict) (w w' : world) (e : exn) :
  generate_prompt_assessment d w = (Raise e, w') ->
  w' = w /\ is_KeyError e = false.
Proof.
  intros H. destruct (generate_prompt_assessment_raises d w w' e H) as (Hw & _ & Hk).
  split; [exact Hw | exact Hk].
Qed.

Lemma validation_failure_has_no_effect_witness :
  initial_world unreachable = initial_world unreachable
  /\ is_KeyError (no_attribute (VList []) "get") = false.
Proof.
  exact (validation_failure_has_no_effect
           (assessment_data "Backend Engineer" (VList []))
           (initial_world unreachable) (initial_world unreachable)
           (no_attribute (VList []) "get") eq_refl).
Defined.

(** What it takes for a dict to be rendered as [prompt]: the role and a
    card that is a dict; truthy keywords, tools other than [None], a
    level that is a [str] and allowed once lower-cased, a truthy count
    that [int] takes to at least 1; keywords, and tools when truthy,
    that [str.join] accepts.  The fields are rendered by [str]. *)
Definition renders (d : dict) (prompt : string) : Prop :=
  exists (role_v : value) (c : dict) (lvl : string) (n : Z)
         (joined_keywords suffix : string),
    let keywords_v := dict_get c "keywords" VNone in
    let tools_v := dict_get c "tools" (VList []) in
    let count_v := dict_get c "noOfQuestions" VNone in
    lookup "role" d = Some role_v
    /\ lookup "card" d = Some (VDict c)
    /\ truthy keywords_v = true
    /\ is_not_None tools_v = true
    /\ dict_get c "level" VNone = VStr lvl
    /\ mem (lower lvl) allowed_levels = true
    /\ truthy count_v = true
    /\ int_ count_v = Ok n
    /\ 1 <= n
    /\ join ", " keywords_v = Ok joined_keywords
    /\ (if truthy tools_v
        then exists joined, join ", " tools_v = Ok joined /\ suffix = " using " ++ joined
        else suffix = EmptyString)
    /\ prompt
       = "I want " ++ str count_v ++ " assessment questions of " ++ lvl
           ++ " complexity for " ++ str role_v ++ " on " ++ joined_keywords
           ++ suffix ++ ".".

Lemma returned_prompt_renders (d : dict) (w w' : world) (prompt : string) :
  generate_prompt_assessment d w = (Ok prompt, w') ->
  renders d prompt
  /\ w' = with_log (LogRecord DEBUG ("Generated prompt: " ++ prompt) false) w.
Proof.
  rewrite generate_prompt_assessment_cases.
  - intros H.
    destruct (contains "role" d) eqn:Hr; [| discriminate].
    destruct (contains "card" d) eqn:Hc; [| discriminate].
    cbn [andb negb] in H.
    destruct (contains_lookup _ _ Hr) as [role_v Hrole].
    destruct (contains_lookup _ _ Hc) as [card_v Hcard]. rewrite Hcard in H.
    rewrite (dict_get_present _ _ VNone _ Hrole) in H.
    destruct card_v as [| | | | | c]; try discriminate.
    cbv zeta in H.
    destruct (truthy (dict_get c "keywords" VNone)) eqn:Hkw; [| discriminate].
    destruct (is_not_None (dict_get c "tools" (VList []))) eqn:Htl; [| discriminate].
    destruct (truthy (dict_get c "level" VNone)) eqn:Hlv; [| discriminate].
    destruct (truthy (dict_get c "noOfQuestions" VNone)) eqn:Hct; [| discriminate].
    cbn [andb negb] in H.
    destruct (int_ _) as [n | e1] eqn:Hint in H; [| discriminate].
    destruct (Z.ltb_spec n 1) as [| Hge]; [discriminate |].
    destruct (dict_get c "level" VNone) as [| | | lvl | |] eqn:Hlvl; try discriminate.
    cbn [lower_ str] in H.
    destruct (mem (lower lvl) allowed_levels) eqn:Hmem; [| discriminate].
    cbn [negb] in H.
    destruct (truthy (dict_get c "tools" (VList []))) eqn:Htr.
    + destruct (join ", " (dict_get c "tools" (VList []))) as [jt | e1] eqn:Hjt;
        [| discriminate].
      destruct (join ", " (dict_get c "keywords" VNone)) as [jk | e1] eqn:Hjk;
        [| discriminate].
      injection H as <- <-. split; [| reflexivity].
      exists role_v, c, lvl, n, jk, (" using " ++ jt). cbv zeta.
      rewrite Htr. repeat split; auto. now exists jt.
    + destruct (join ", " (dict_get c "keywords" VNone)) as [jk | e1] eqn:Hjk;
        [| discriminate].
      injection H as <- <-. split; [| reflexivity].
      exists role_v, c, lvl, n, jk, EmptyString. cbv zeta.
      rewrite Htr. repeat split; auto.
Qed.

Lemma rendering_returned (d : dict) (w : world) (prompt : string) :
  renders d prompt ->
  generate_prompt_assessment d w
  = (Ok prompt, with_log (LogRecord DEBUG ("Generated prompt: " ++ prompt) false) w).
Proof.
  rewrite generate_prompt_assessment_cases.
  - intros (role_v & c & lvl & n & jk & suffix & H). cbv zeta in H.
    destruct H as (Hrole & Hcard & Hkw & Htl & Hlvl & Hmem & Hct & Hint & Hge & Hjk
                   & Hsuf & ->).
    rewrite (lookup_contains _ _ _ Hrole), (lookup_contains _ _ _ Hcard), Hcard.
    rewrite (dict_get_present _ _ VNone _ Hrole).
    cbv zeta. rewrite Hkw, Htl, Hct, Hint, Hlvl, Hjk.
    cbn [truthy lower_ str].
    destruct lvl as [| ch lvl]; [discriminate |].
    cbn [String.eqb negb andb].
    destruct (Z.ltb_spec n 1); [lia |].
    rewrite Hmem. cbn [negb].
    destruct (truthy (dict_get c "tools" (VList []))).
    + destruct Hsuf as (jt & -> & ->). reflexivity.
    + subst suffix. reflexivity.
Qed.

(** [generate_prompt_assessment] returns a prompt exactly for the dicts
    that pass every check, and then it has logged that prompt, once, at
    debug level, and done nothing else. *)
Theorem prompt_returned_iff_checks_pass (d : dict) (w w' : world) (prompt : string) :
  generate_prompt_assessment d w = (Ok prompt, w')
  <-> renders d prompt
      /\ w' = with_log (LogRecord DEBUG ("Generated prompt: " ++ prompt) false) w.
Proof.
  split.
  - apply returned_prompt_renders.
  - intros [H ->]. now apply rendering_returned.
Qed.

Lemma prompt_returned_iff_checks_pass_witness :
  fst (generate_prompt_assessment
         [ ("role", VStr "QA");
           ("card", VDict [ ("keywords", VStr "SQL");
                            ("tools", VInt 0);
                            ("level", VStr "Low");
                            ("noOfQuestions", VBool true) ]) ]
         (initial_world unreachable))
  = Ok "I want True assessment questions of Low complexity for QA on S, Q, L.".
Proof.
  refine (f_equal fst
            (proj2 (prompt_returned_iff_checks_pass _ (initial_world unreachable) _ _)
               (conj _ eq_refl))).
  exists (VStr "QA"),
    [ ("keywords", VStr "SQL"); ("tools", VInt 0); ("level", VStr "Low");
      ("noOfQuestions", VBool true) ],
    "Low", 1, "S, Q, L", EmptyString.
  cbv zeta. repeat split; try reflexivity; try lia.
Defined.

(** The dict of a request, as [request.dict()] builds it, has the key
    [cards] and no key [card]: handed to [generate_prompt_assessment] as
    it is, it is rejected at the first check, whatever the cards are. *)
Theorem request_dict_has_no_card (request : AssessmentRequest) (w : world) :
  lookup "card" (AssessmentRequest_dict request) = None
  /\ lookup "cards" (AssessmentRequest_dict request)
     = Some (VList (map Card_dict (cards request)))
  /\ generate_prompt_assessment (AssessmentRequest_dict request) w
     = (Raise (value_error "Missing required assessment data"), w).
Proof.
  split; [reflexivity | split; [reflexivity |]].
  now apply missing_assessment_data_raised.
Qed.

(** One card of a request, with the request's role: by the types of the
    pydantic model the outcome is decided by three tests.  An empty
    keyword list, an empty level or a count of 0 is reported as missing
    fields; any other count below 1 as a count error; a level outside
    low, medium, high as a level error; every other card is rendered by
    the rule. *)
Theorem typed_card_outcome (role : string) (c : Card) (w : world) :
  generate_prompt_assessment (assessment_data role (Card_dict c)) w
  = if match keywords c with [] => true | _ :: _ => false end
       || String.eqb (level c) EmptyString || (noOfQuestions c =? 0)
    then (Raise (value_error "Missing required fields in one of the cards"), w)
    else if noOfQuestions c <? 1
    then (Raise (value_error "Number of questions must be greater than 1"), w)
    else if negb (mem (lower (level c)) allowed_levels)
    then (Raise (value_error "Level must be 'low', 'medium', or 'high'"), w)
    else
      let prompt :=
        rendered_prompt role (level c) (noOfQuestions c) (keywords c) (tools c) in
      (Ok prompt, with_log (LogRecord DEBUG ("Generated prompt: " ++ prompt) false) w).
Proof.
  destruct c as [kws tls lvl n]. cbn [keywords tools level noOfQuestions].
  set (d := assessment_data role _).
  set (cd := [ ("keywords", list_of_str kws); ("tools", list_of_str tls);
               ("level", VStr lvl); ("noOfQuestions", VInt n) ]).
  assert (Hrole : lookup "role" d = Some (VStr role)) by reflexivity.
  assert (Hcard : lookup "card" d = Some (VDict cd)) by reflexivity.
  assert (Hfields : truthy (dict_get cd "keywords" VNone)
                    && is_not_None (dict_get cd "tools" (VList []))
                    && truthy (dict_get cd "level" VNone)
                    && truthy (dict_get cd "noOfQuestions" VNone)
                    = negb (match kws with [] => true | _ :: _ => false end
                            || String.eqb lvl EmptyString || (n =? 0))).
  { change (dict_get cd "keywords" VNone) with (list_of_str kws).
    change (dict_get cd "tools" (VList [])) with (list_of_str tls).
    change (dict_get cd "level" VNone) with (VStr lvl).
    change (dict_get cd "noOfQuestions" VNone) with (VInt n).
    rewrite truthy_list_of_str. cbn [truthy is_not_None list_of_str].
    destruct kws, (String.eqb lvl EmptyString), (n =? 0); reflexivity. }
  destruct (_ || _ || _) eqn:Hmissing.
  - now apply (missing_fields_raised d cd (VStr role) w Hrole Hcard).
  - destruct (Z.ltb_spec n 1) as [Hlt | Hge].
    + now apply (count_below_one_raised d cd (VStr role) w Hrole Hcard n).
    + destruct (mem (lower lvl) allowed_levels) eqn:Hmem; cbn [negb].
      * apply (prompt_of_valid_card d cd (VStr role) kws tls lvl n w); auto.
        destruct kws; [discriminate | congruence].
      * now apply (level_outside_raised d cd (VStr role) w Hrole Hcard n lvl).
Qed.

(** *** The generation client as one case analysis *)

(** What [get_result] reads out of a response, step by step as the
    source chains it: the status, the parsed body, then
    [.get("candidates")[0].get("content").get("parts")[0].get("text")]. *)
Definition and_then {A B : Type} (r : result A) (k : A -> result B) : result B :=
  match r with
  | Ok a => k a
  | Raise e => Raise e
  end.

Definition answer_of (r : response) : result value :=
  and_then (raise_for_status r) (fun _ =>
  and_then (json r) (fun parsed =>
  and_then (get parsed "candidates" VNone) (fun candidates =>
  and_then (first candidates) (fun candidate =>
  and_then (get candidate "content" VNone) (fun content =>
  and_then (get content "parts" VNone) (fun parts =>
  and_then (first parts) (fun part =>
  get part "text" VNone))))))).

(** What the [try] statement makes of an exception raised in its body. *)
Definition after_failure (e : exn) (w : world) : result value * world :=
  if is_RequestError e then
    (Raise provider_failure, with_log (LogRecord ERROR "Service Exception:" true) w)
  else (Raise e, w).

Lemma bind_lift {A B : Type} (r : result A) (k : A -> M B) (w : world) :
  bind (lift r) k w = match r with Ok a => k a w | Raise e => (Raise e, w) end.
Proof. unfold bind, lift. now destruct r. Qed.

Lemma handle_request_error (e : exn) (w : world) :
  handle
    [ (is_RequestError,
       fun _ : exn =>
         bind (logging_error "Service Exception:" true)
           (fun _ =>
              raise (Exn Exception_ (VStr "Error in getting response from Gemini API"))
            : M value)) ] e w
  = after_failure e w.
Proof.
  unfold after_failure. cbn [handle]. now destruct (is_RequestError e).
Qed.

Lemma get_result_cases (key : string) (generation safety : value) (prompt : string)
    (w : world) :
  get_result key generation safety prompt w
  = let w1 := with_request (request_for key generation safety prompt)
                (announced prompt w) in
    match provider w (sent w ++ [request_for key generation safety prompt])%list with
    | PostRaises e => after_failure e w1
    | PostReturns r =>
        match answer_of r with
        | Raise e => after_failure e w1
        | Ok answer =>
            (Ok answer,
             with_log (LogRecord DEBUG ("Generated content: " ++ str answer) false)
               (with_log (LogRecord INFO "Received response from API." false) w1))
        end
    end.
Proof.
  enter_try. fold (request_for key generation safety prompt). cbv zeta.
  change (World _ (sent w ++ _)%list (provider w))
    with (with_request (request_for key generation safety prompt) (announced prompt w)).
  set (w1 := with_request _ _).
  destruct (provider w _) as [r | e]; [| apply handle_request_error].
  unfold answer_of.
  rewrite bind_lift.
  destruct (raise_for_status r); cbn [and_then]; [| apply handle_request_error].
  rewrite bind_lift.
  destruct (json r) as [parsed |]; cbn [and_then]; [| apply handle_request_error].
  rewrite bind_lift.
  destruct (get parsed _ _) as [candidates |]; cbn [and_then];
    [| apply handle_request_error].
  rewrite bind_lift.
  destruct (first candidates) as [candidate |]; cbn [and_then];
    [| apply handle_request_error].
  rewrite bind_lift.
  destruct (get candidate _ _) as [content |]; cbn [and_then];
    [| apply handle_request_error].
  rewrite bind_lift.
  destruct (get content _ _) as [parts |]; cbn [and_then];
    [| apply handle_request_error].
  rewrite bind_lift.
  destruct (first parts) as [part |]; cbn [and_then]; [| apply handle_request_error].
  rewrite bind_lift.
  destruct (get part _ _) as [answer |]; cbn [and_then];
    [reflexivity | apply handle_request_error].
Qed.

(** No [httpx.RequestError] leaves [get_result]: one raised by the POST
    or while the response is read comes out as the generic exception,
    with one error line logged; any other exception comes out as it was
    raised, with nothing logged for it. *)
Theorem request_errors_never_escape (key : string) (generation safety : value)
    (prompt : string) (w w' : world) (e : exn) :
  get_result key generation safety prompt w = (Raise e, w') ->
  is_RequestError e = false
  /\ (e = provider_failure
      \/ w' = with_request (request_for key generation safety prompt)
                (announced prompt w)).
Proof.
  rewrite get_result_cases. cbv zeta.
  assert (Hf : forall e0 w0, after_failure e0 w0 = (Raise e, w') ->
                 is_RequestError e = false /\ (e = provider_failure \/ w' = w0)).
  { intros e0 w0. unfold after_failure.
    destruct (is_RequestError e0) eqn:He0; intros [= <- <-]; auto. }
  destruct (provider w _) as [r | e0]; [| now apply Hf].
  destruct (answer_of r) as [answer | e0]; [discriminate | now apply Hf].
Qed.

Lemma and_then_ok {A B : Type} (r : result A) (k : A -> result B) (b : B) :
  and_then r k = Ok b -> exists a, r = Ok a /\ k a = Ok b.
Proof. destruct r as [a | e]; cbn; [eauto | discriminate]. Qed.

(** A value comes back only from a 2xx response whose body has the
    path: the provider answered the one request with a status in
    200..299, the body parsed, [candidates] and [parts] had first
    items, and the value is what [.get("text")] gives on the first
    part.  Then two lines were logged after the request and nothing
    else happened. *)
Theorem value_returned_only_from_success (key : string) (generation safety : value)
    (prompt : string) (w w' : world) (answer : value) :
  get_result key generation safety prompt w = (Ok answer, w') ->
  exists (r : response) (parsed candidates candidate content parts part : value),
    provider w (sent w ++ [request_for key generation safety prompt])%list
    = PostReturns r
    /\ 200 <= status_code r <= 299
    /\ json r = Ok parsed
    /\ get parsed "candidates" VNone = Ok candidates
    /\ first candidates = Ok candidate
    /\ get candidate "content" VNone = Ok content
    /\ get content "parts" VNone = Ok parts
    /\ first parts = Ok part
    /\ get part "text" VNone = Ok answer
    /\ w' = with_log (LogRecord DEBUG ("Generated content: " ++ str answer) false)
              (with_log (LogRecord INFO "Received response from API." false)
                 (with_request (request_for key generation safety prompt)
                    (announced prompt w))).
Proof.
  rewrite get_result_cases. cbv zeta.
  assert (Hf : forall e0 w0, after_failure e0 w0 <> (Ok answer, w')).
  { intros e0 w0. unfold after_failure. destruct (is_RequestError e0); discriminate. }
  destruct (provider w _) as [r | e0]; [| intros H; now apply Hf in H].
  destruct (answer_of r) as [a | e0] eqn:Ha; [| intros H; now apply Hf in H].
  intros [= -> <-]. unfold answer_of in Ha.
  apply and_then_ok in Ha as ([] & Hst & Ha).
  apply and_then_ok in Ha as (parsed & Hjson & Ha).
  apply and_then_ok in Ha as (candidates & Hc & Ha).
  apply and_then_ok in Ha as (candidate & Hc0 & Ha).
  apply and_then_ok in Ha as (content & Hct & Ha).
  apply and_then_ok in Ha as (parts & Hp & Ha).
  apply and_then_ok in Ha as (part & Hp0 & Ha).
  exists r, parsed, candidates, candidate, content, parts, part.
  repeat split; auto.
  - unfold raise_for_status, between in Hst.
    destruct (200 <=? status_code r) eqn:E; [lia | discriminate].
  - unfold raise_for_status, between in Hst.
    destruct (200 <=? status_code r); [| discriminate].
    destruct (status_code r <=? 299) eqn:E; [lia | discriminate].
Qed.

(** A provider that answers every request with status 200 and the given
    body. *)
Definition answering_body (body : value) : list http_request -> post_outcome :=
  fun _ => PostReturns (Response 200 EmptyString (Ok body)).

Definition body_with_part (part : value) : value :=
  VDict [("candidates",
          VList [VDict [("content", VDict [("parts", VList [part])])]])].

Lemma value_returned_only_from_success_witness :
  exists r : response,
    provider (initial_world (answering_body
                (body_with_part (VDict [("text", VStr "**Question 1**")]))))
      [request_for "k3y" (VDict []) (VList []) "P"]
    = PostReturns r
    /\ 200 <= status_code r <= 299.
Proof.
  destruct (value_returned_only_from_success "k3y" (VDict []) (VList []) "P"
              (initial_world (answering_body
                 (body_with_part (VDict [("text", VStr "**Question 1**")]))))
              _ (VStr "**Question 1**") eq_refl)
    as (r & _ & _ & _ & _ & _ & _ & H & Hst & _).
  exists r. split; [exact H | exact Hst].
Defined.

(** A 2xx response whose first part is a dict without the key [text]:
    no exception, [get_result] returns [None] and logs it as the
    generated content. *)
Theorem missing_text_returns_None (key : string) (generation safety : value)
    (prompt : string) (w : world) (r : response)
    (body candidate content part : dict) (candidates parts : list value) :
  provider w (sent w ++ [request_for key generation safety prompt])%list
  = PostReturns r ->
  between 200 299 (status_code r) = true ->
  json r = Ok (VDict body) ->
  lookup "candidates" body = Some (VList (VDict candidate :: candidates)) ->
  lookup "content" candidate = Some (VDict content) ->
  lookup "parts" content = Some (VList (VDict part :: parts)) ->
  lookup "text" part = None ->
  get_result key generation safety prompt w
  = (Ok VNone,
     with_log (LogRecord DEBUG "Generated content: None" false)
       (with_log (LogRecord INFO "Received response from API." false)
          (with_request (request_for key generation safety prompt)
             (announced prompt w)))).
Proof.
  intros H Hst Hjson Hc Hct Hp Ht. rewrite get_result_cases. cbv zeta. rewrite H.
  unfold answer_of, raise_for_status. rewrite Hst, Hjson. cbn [and_then get].
  rewrite (dict_get_present _ _ _ _ Hc). cbn [and_then first get].
  rewrite (dict_get_present _ _ _ _ Hct). cbn [and_then first get].
  rewrite (dict_get_present _ _ _ _ Hp). cbn [and_then first get].
  rewrite (dict_get_absent _ _ _ Ht). reflexivity.
Qed.

Lemma missing_text_returns_None_witness :
  fst (get_result "k3y" (VDict []) (VList []) "P"
         (initial_world (answering_body
            (body_with_part (VDict [("finishReason", VStr "SAFETY")])))))
  = Ok VNone.
Proof.
  exact (f_equal fst
           (missing_text_returns_None "k3y" (VDict []) (VList []) "P"
              (initial_world (answering_body
                 (body_with_part (VDict [("finishReason", VStr "SAFETY")]))))
              (Response 200 EmptyString
                 (Ok (body_with_part (VDict [("finishReason", VStr "SAFETY")]))))
              [("candidates",
                VList [VDict [("content",
                               VDict [("parts",
                                       VList [VDict [("finishReason", VStr "SAFETY")]])])]])]
              [("content",
                VDict [("parts", VList [VDict [("finishReason", VStr "SAFETY")]])])]
              [("parts", VList [VDict [("finishReason", VStr "SAFETY")]])]
              [("finishReason", VStr "SAFETY")] [] []
              eq_refl eq_refl eq_refl eq_refl eq_refl eq_refl eq_refl)).
Defined.

(** A 2xx response whose body is a dict without usable candidates: the
    interpreter's own exception leaves [get_result] as it is, a
    [TypeError] when the key [candidates] is absent and an [IndexError]
    when the list is empty; no error line is logged and the generic
    exception is not raised. *)
Theorem absent_candidates_raise_raw_errors (key : string) (generation safety : value)
    (prompt : string) (w : world) (r : response) (body : dict) :
  provider w (sent w ++ [request_for key generation safety prompt])%list
  = PostReturns r ->
  between 200 299 (status_code r) = true ->
  json r = Ok (VDict body) ->
  (lookup "candidates" body = None ->
   get_result key generation safety prompt w
   = (Raise (Exn TypeError (VStr "'NoneType' object is not subscriptable")),
      with_request (request_for key generation safety prompt) (announced prompt w)))
  /\ (lookup "candidates" body = Some (VList []) ->
      get_result key generation safety prompt w
      = (Raise (Exn IndexError (VStr "list index out of range")),
         with_request (request_for key generation safety prompt) (announced prompt w))).
Proof.
  intros H Hst Hjson. split; intros Hc;
    rewrite get_result_cases; cbv zeta; rewrite H;
    unfold answer_of, raise_for_status; rewrite Hst, Hjson; cbn [and_then get].
  - now rewrite (dict_get_absent _ _ _ Hc).
  - now rewrite (dict_get_present _ _ _ _ Hc).
Qed.

Lemma absent_candidates_raise_raw_errors_witness :
  fst (get_result "k3y" (VDict []) (VList []) "P"
         (initial_world (answering_body (VDict [("promptFeedback", VDict [])]))))
  = Raise (Exn TypeError (VStr "'NoneType' object is not subscriptable")).
Proof.
  exact (f_equal fst
           (proj1 (absent_candidates_raise_raw_errors "k3y" (VDict []) (VList []) "P"
                     (initial_world
                        (answering_body (VDict [("promptFeedback", VDict [])])))
                     (Response 200 EmptyString
                        (Ok (VDict [("promptFeedback", VDict [])])))
                     [("promptFeedback", VDict [])]
                     eq_refl eq_refl eq_refl)
              eq_refl)).
Defined.

(** *** A count given as decimal text *)

Lemma digits_step (c : ascii) (k acc : Z) (s : string) :
  Ascii.eqb c "_" = false ->
  digit c = Some k ->
  digits acc false (String c s) = digits (10 * acc + k) false s.
Proof. intros Hc Hk. cbn [digits]. now rewrite Hc, Hk. Qed.

Lemma digits_of_uint_acc (u : Decimal.uint) (acc : positive) :
  digits (Z.pos acc) false (NilEmpty.string_of_uint u)
  = Some (Z.pos (Pos.of_uint_acc u acc)).
Proof.
  revert acc.
  induction u; intros acc; cbn [NilEmpty.string_of_uint Pos.of_uint_acc];
    [reflexivity | ..];
    match goal with
    | |- digits _ false (String ?c _) = Some (Z.pos (Pos.of_uint_acc _ ?a)) =>
        let k := eval vm_compute in (code c - 48) in
        rewrite (digits_step c k _ _ eq_refl eq_refl);
        rewrite <- IHu; f_equal; lia
    end.
Qed.

Lemma digits_of_uint (u : Decimal.uint) :
  digits 0 false (NilEmpty.string_of_uint u) = Some (Z.of_N (Pos.of_uint u)).
Proof.
  induction u; cbn [NilEmpty.string_of_uint Pos.of_uint]; [reflexivity | ..];
    match goal with
    | |- digits _ false (String ?c _) = _ =>
        let k := eval vm_compute in (code c - 48) in
        rewrite (digits_step c k _ _ eq_refl eq_refl)
    end;
    [exact IHu | apply (digits_of_uint_acc u) ..].
Qed.

Lemma magnitude_of_uint (u : Decimal.uint) :
  u <> Decimal.Nil ->
  magnitude (NilZero.string_of_uint u) = Some (Z.of_N (Pos.of_uint u)).
Proof.
  intros Hu. rewrite <- digits_of_uint.
  destruct u; [contradiction | reflexivity ..].
Qed.

(** [int] reads back the decimal text of an integer. *)
Lemma int_of_str_of_Z (n : Z) : int_of_str (str_of_Z n) = Some n.
Proof.
  unfold str_of_Z. destruct n as [| p | p]; [reflexivity | |];
    cbn [Z.to_int NilZero.string_of_int].
  - transitivity (magnitude (NilZero.string_of_uint (Pos.to_uint p))).
    + pose proof (Unsigned.to_uint_nonnil p) as Hn.
      destruct (Pos.to_uint p); [contradiction | reflexivity ..].
    + rewrite (magnitude_of_uint _ (Unsigned.to_uint_nonnil p)).
      now rewrite Unsigned.of_to.
  - transitivity (option_map Z.opp (magnitude (NilZero.string_of_uint (Pos.to_uint p)))).
    + reflexivity.
    + rewrite (magnitude_of_uint _ (Unsigned.to_uint_nonnil p)).
      now rewrite Unsigned.of_to.
Qed.

Lemma str_of_Z_nonempty (n : Z) : String.eqb (str_of_Z n) EmptyString = false.
Proof.
  unfold str_of_Z. destruct n as [| p | p]; [reflexivity | | reflexivity].
  cbn [Z.to_int NilZero.string_of_int]. pose proof (Unsigned.to_uint_nonnil p) as Hn.
  destruct (Pos.to_uint p); [contradiction | reflexivity ..].
Qed.

(** A count given as the decimal text of an integer [n], for any
    otherwise valid card: from 1 up it is accepted and the prompt is the
    one of the integer [n]; below 1 it is reported by the count check,
    and that includes the text of 0. *)
Theorem count_as_decimal_text (d c : dict) (role : string) (kws tls : list string)
    (lvl : string) (n : Z) (w : world) :
  has_role_and_card d role c ->
  valid_keywords c kws ->
  valid_tools c tls ->
  valid_level c lvl ->
  lookup "noOfQuestions" c = Some (VStr (str_of_Z n)) ->
  generate_prompt_assessment d w
  = if n <? 1 then
      (Raise (value_error "Number of questions must be greater than 1"), w)
    else
      (Ok (rendered_prompt role lvl n kws tls),
       with_log (LogRecord DEBUG
                   ("Generated prompt: " ++ rendered_prompt role lvl n kws tls) false) w).
Proof.
  intros [Hrole Hcard] [Hkw Hne] Htools [Hlvl Hallowed] Hn.
  assert (Hfields :
            truthy (dict_get c "keywords" VNone)
            && is_not_None (dict_get c "tools" (VList []))
            && truthy (dict_get c "level" VNone)
            && truthy (dict_get c "noOfQuestions" VNone) = true).
  { rewrite (dict_get_present _ _ _ _ Hkw), (dict_get_present _ _ _ _ Htools),
      (dict_get_present _ _ _ _ Hlvl), (dict_get_present _ _ _ _ Hn).
    rewrite truthy_list_of_str, (allowed_level_truthy _ Hallowed).
    cbn [truthy]. rewrite str_of_Z_nonempty.
    destruct kws; [congruence | reflexivity]. }
  assert (Hint : int_ (dict_get c "noOfQuestions" VNone) = Ok n).
  { rewrite (dict_get_present _ _ _ _ Hn). cbn [int_]. now rewrite int_of_str_of_Z. }
  destruct (Z.ltb_spec n 1) as [Hlt | Hge].
  - now apply (count_below_one_raised d c (VStr role) w Hrole Hcard n).
  - apply rendering_returned.
    exists (VStr role), c, lvl, n, (String.concat ", " kws), (tools_suffix tls).
    cbv zeta.
    rewrite (dict_get_present _ _ _ _ Hkw), (dict_get_present _ _ _ _ Htools),
      (dict_get_present _ _ _ _ Hlvl), (dict_get_present _ _ _ _ Hn),
      !join_list_of_str, !truthy_list_of_str.
    rewrite (dict_get_present _ _ _ _ Hkw), (dict_get_present _ _ _ _ Htools),
      (dict_get_present _ _ _ _ Hlvl), (dict_get_present _ _ _ _ Hn) in Hfields.
    rewrite (dict_get_present _ _ _ _ Hn) in Hint.
    rewrite truthy_list_of_str in Hfields.
    apply andb_prop in Hfields as [Hfields Hct].
    apply andb_prop in Hfields as [Hfields _].
    apply andb_prop in Hfields as [Hk _].
    repeat split; auto.
    destruct tls; [reflexivity |]. eexists. split; reflexivity.
Qed.

Lemma count_as_decimal_text_witness :
  fst (generate_prompt_assessment
         (assessment_data "Backend Engineer" (card ["APIs"] [] "low" (VStr "0")))
         (initial_world unreachable))
  = Raise (value_error "Number of questions must be greater than 1").
Proof.
  refine (f_equal fst
            (count_as_decimal_text
               (assessment_data "Backend Engineer" (card ["APIs"] [] "low" (VStr "0")))
               [ ("keywords", list_of_str ["APIs"]);
                 ("tools", list_of_str []);
                 ("level", VStr "low");
                 ("noOfQuestions", VStr "0") ]
               "Backend Engineer" ["APIs"] [] "low" 0
               (initial_world unreachable) _ _ _ _ _)).
  - split; reflexivity.
  - split; [reflexivity | discriminate].
  - reflexivity.
  - split; reflexivity.
  - reflexivity.
Defined.

(** *** Validation, then generation *)

(** The two functions in sequence, as a caller runs them: when
    validation fails nothing is sent and the validation error comes out;
    when it returns a prompt, exactly one request is sent, and its text
    is that prompt followed by the format template. *)
Theorem at_most_one_request (key : string) (generation safety : value) (d : dict)
    (w : world) :
  let outcome :=
    bind (generate_prompt_assessment d) (get_result key generation safety) w in
  (forall e w', generate_prompt_assessment d w = (Raise e, w') ->
                outcome = (Raise e, w))
  /\ (forall prompt w', generate_prompt_assessment d w = (Ok prompt, w') ->
        sent (snd outcome) = (sent w ++ [request_for key generation safety prompt])%list
        /\ text_field (data (request_for key generation safety prompt))
           = Some (prompt ++ example_format)).
Proof.
  cbv zeta. split.
  - intros e w' H. destruct (generate_prompt_assessment_raises d w w' e H) as [-> _].
    unfold bind. now rewrite H.
  - intros prompt w' H. split; [| reflexivity].
    unfold bind. rewrite H.
    destruct (get_result_posts_once key generation safety prompt w') as [later ->].
    cbn [sent].
    destruct (generate_prompt_assessment_only_logs d w) as [l Hl].
    rewrite H in Hl. cbn [snd] in Hl. now rewrite Hl.
Qed.

Lemma at_most_one_request_witness :
  bind (generate_prompt_assessment
          (assessment_data "Backend Engineer" (card ["APIs"] [] "extreme" (VInt 2))))
    (get_result "k3y" (VDict []) (VList [])) (initial_world unreachable)
  = (Raise (value_error "Level must be 'low', 'medium', or 'high'"),
     initial_world unreachable).
Proof.
  exact (proj1 (at_most_one_request "k3y" (VDict []) (VList [])
                  (assessment_data "Backend Engineer"
                     (card ["APIs"] [] "extreme" (VInt 2)))
                  (initial_world unreachable))
           (value_error "Level must be 'low', 'medium', or 'high'")
           (initial_world unreachable) eq_refl).
Defined.

(** *** The route, whatever the service does *)


(** A service that begins by validating some dict with
    [generate_prompt_assessment]: whenever that validation fails, the
    endpoint answers 500, not 400, with the validation message in the
    detail, and logs that one line. *)
Theorem validation_failure_answered_500 (prepare : dict -> dict)
    (continue : string -> M value) (request : AssessmentRequest) (w w' : world)
    (e : exn) :
  generate_prompt_assessment (prepare (AssessmentRequest_dict request)) w
  = (Raise e, w') ->
  generate_assessment_endpoint
    (fun d => bind (generate_prompt_assessment (prepare d)) continue) request w
  = (Raise (Exn (HTTPException 500)
              (VStr ("An error occurred: " ++ str (exn_arg e)))),
     with_log (LogRecord ERROR ("An error occurred: " ++ str (exn_arg e)) true) w).
Proof.
  intros H.
  destruct (generate_prompt_assessment_raises _ w w' e H) as (-> & Hin & Hk).
  unfold generate_assessment_endpoint, try_except.
  unfold bind at 1. unfold bind at 1. rewrite H. cbn [handle]. rewrite Hk.
  assert (Hs : str_exn e = str (exn_arg e)).
  { unfold str_exn. destruct Hin as [<- | [<- | [<- | []]]]; reflexivity. }
  rewrite Hs. reflexivity.
Qed.

Lemma validation_failure_answered_500_witness :
  http_response
    (fst (generate_assessment_endpoint
            (fun d => bind (generate_prompt_assessment d) (fun p => ret (VStr p)))
            (MkAssessmentRequest "Backend Engineer" [MkCard ["APIs"] [] "low" 2])
            (initial_world unreachable)))
  = (500, VDict [("detail", VStr "An error occurred: Missing required assessment data")]).
Proof.
  exact (f_equal (fun o => http_response (fst o))
           (validation_failure_answered_500 (fun d => d) (fun p => ret (VStr p))
              (MkAssessmentRequest "Backend Engineer" [MkCard ["APIs"] [] "low" 2])
              (initial_world unreachable) (initial_world unreachable)
              (value_error "Missing required assessment data") eq_refl)).
Defined.

(** A 2xx response with a string at the path: the witness of
    [answer_text_returned]. *)
Lemma answer_text_returned_witness :
  fst (get_result "k3y" (VDict []) (VList []) "P"
         (initial_world (answering_body
            (body_with_part (VDict [("text", VStr "**Question 1**...")])))))
  = Ok (VStr "**Question 1**...").
Proof.
  exact (f_equal fst
           (answer_text_returned "k3y" (VDict []) (VList []) "P"
              (initial_world (answering_body
                 (body_with_part (VDict [("text", VStr "**Question 1**...")]))))
              (Response 200 EmptyString
                 (Ok (body_with_part (VDict [("text", VStr "**Question 1**...")]))))
              [("candidates",
                VList [VDict [("content",
                               VDict [("parts",
                                       VList [VDict [("text", VStr "**Question 1**...")]])])]])]
              [("content",
                VDict [("parts", VList [VDict [("text", VStr "**Question 1**...")]])])]
              [("parts", VList [VDict [("text", VStr "**Question 1**...")]])]
              [("text", VStr "**Question 1**...")] [] [] "**Question 1**..."
              eq_refl eq_refl eq_refl eq_refl eq_refl eq_refl eq_refl)).
Defined.

Lemma request_errors_never_escape_witness :
  is_RequestError provider_failure = false
  /\ (provider_failure = provider_failure
      \/ with_log (LogRecord ERROR "Service Exception:" true)
           (with_request (request_for "k3y" (VDict []) (VList []) "P")
              (announced "P" (initial_world unreachable)))
         = with_request (request_for "k3y" (VDict []) (VList []) "P")
             (announced "P" (initial_world unreachable))).
Proof.
  exact (request_errors_never_escape "k3y" (VDict []) (VList []) "P"
           (initial_world unreachable) _ provider_failure eq_refl).
Defined.
